(** * Pump service checklist: the PDF document composer and its image normalizer

    A shallow embedding of the two composer variants of the repository,

    - [Full]:            src/utils/generatePDF.ts (15 checklist items, the
                         sections wrapped in unbreakable stacks), and
    - [PreServiceOnly]:  the second generatePDF module (6 checklist items,
                         one free-flowing page with a title block),

    together with the [loadImage] helper that both of them define with the
    same text.  JavaScript strings are modelled by [string] (the UTF-8
    bytes of the source literals), promises by their outcome together
    with the trace of browser effects they performed.  The numbers of the
    document tree (margins, sizes, widths) are constants and are written
    as rationals [Q]; the arithmetic of [img.onload] is given twice, in
    IEEE 754 doubles as the program computes it ([targetSizeDouble]) and
    in exact rationals ([targetSize]). *)

From Stdlib Require Import String Ascii List ZArith QArith Lqa Lia Bool.
From Stdlib Require Import Floats.
Import ListNotations.

Set Warnings "-register-all".

Open Scope list_scope.
Open Scope string_scope.

(** ** Languages and bilingual text *)

(** [language: 'en' | 'th'] *)
Inductive Language := En | Th.

Definition Language_eqb (a b : Language) : bool :=
  match a, b with
  | En, En | Th, Th => true
  | _, _ => false
  end.

(** An object literal [{ en: ..., th: ... }]. *)
Record Bilingual := mkBilingual { en : string; th : string }.

(** Indexing a bilingual literal: [pair[language]]. *)
Definition index (pair : Bilingual) (language : Language) : string :=
  match language with
  | En => en pair
  | Th => th pair
  end.

Notation "p .[ l ]" := (index p l) (at level 1, left associativity, format "p .[ l ]").

(** The conditional [language === 'en' ? a : b]. *)
Definition ifEn {A : Type} (language : Language) (a b : A) : A :=
  if Language_eqb language En then a else b.

(** ** JavaScript truthiness of strings *)

(** A string is truthy exactly when it is not empty. *)
Definition truthy (s : string) : bool :=
  match s with
  | EmptyString => false
  | String _ _ => true
  end.

(** An optional property is [undefined] when absent, which is falsy. *)
Definition truthy_opt (s : option string) : bool :=
  match s with
  | Some v => truthy v
  | None => false
  end.

(** [a || b] on strings. *)
Definition js_or (a b : string) : string := if truthy a then a else b.

Infix "|||" := js_or (at level 50, left associativity).

(** Interpolating an optional string that is known to be truthy. *)
Definition interpolate (s : option string) : string :=
  match s with
  | Some v => v
  | None => "undefined"
  end.

(** [s.split('/').join('.')]: every slash becomes a dot. *)
Fixpoint split_join_slash_dot (s : string) : string :=
  match s with
  | EmptyString => EmptyString
  | String c rest =>
      String (if Ascii.eqb c "/"%char then "."%char else c)
             (split_join_slash_dot rest)
  end.

(** ** Promises and browser effects *)

(** [Blob]: the fetched bytes and their media type; [blob.size] is the
    number of bytes. *)
Record Blob := mkBlob { bytes : list Byte.byte; type : string }.

Definition size (blob : Blob) : Z := Z.of_nat (length (bytes blob)).

(** The calls into the browser and the rendering engine that the code
    makes, in the order it makes them. *)
Inductive Event :=
| Fetch (url : string)
| ReadAsDataURL (blob : Blob)
| ImageSrc (blob : Blob)
| DrawImage (w h : Q)
| ToDataURL (mime : string) (quality : Q)
| SetFonts (families : list string)
| CreatePdf.

(** How a promise ends: it resolves, it rejects, or it never settles. *)
Inductive Outcome (A : Type) :=
| Resolved (a : A)
| Rejected
| Pending.
Arguments Resolved {A} a.
Arguments Rejected {A}.
Arguments Pending {A}.

(** An asynchronous computation: the effects performed and the outcome. *)
Definition Async (A : Type) : Type := (list Event * Outcome A)%type.

Definition resolve {A : Type} (a : A) : Async A := ([], Resolved a).
Definition reject {A : Type} : Async A := ([], Rejected).
Definition never {A : Type} : Async A := ([], Pending).
Definition emit (e : Event) : Async unit := ([e], Resolved tt).

(** [await p] followed by the rest of the function body. *)
Definition await {A B : Type} (p : Async A) (k : A -> Async B) : Async B :=
  match p with
  | (t, Resolved a) => let (t', o) := k a in ((t ++ t')%list, o)
  | (t, Rejected) => (t, Rejected)
  | (t, Pending) => (t, Pending)
  end.

Notation "x <- p ;; k" := (await p (fun x => k))
  (at level 61, p at next level, right associativity).
Notation "p ;; k" := (await p (fun _ => k))
  (at level 61, right associativity).

(** [Promise.all([p, q])]: both are started; the result rejects when one
    of them rejects, stays pending when one never settles, and resolves
    with both values otherwise.  The trace lists the effects of [p]
    before those of [q]; how the two interleave in time, and with what
    follows a rejection, is not recorded. *)
Definition Promise_all {A B : Type} (p : Async A) (q : Async B) : Async (A * B) :=
  ((fst p ++ fst q)%list,
   match snd p, snd q with
   | Rejected, _ | _, Rejected => Rejected
   | Pending, _ | _, Pending => Pending
   | Resolved a, Resolved b => Resolved (a, b)
   end).

Definition events {A : Type} (p : Async A) : list Event := fst p.
Definition outcome {A : Type} (p : Async A) : Outcome A := snd p.

(** ** The image normalizer ([loadImage], the same text in both modules) *)

(** [const maxImageSize = 500 * 1024] *)
Definition maxImageSize : Z := 500 * 1024.

Definition Qgtb (a b : Q) : bool := negb (Qle_bool a b).

(** The body of [img.onload] up to the assignment of the canvas size:
    from [img.width] and [img.height] to the final [width] and [height].
    The quotient [width / height] is the exact one (no rounding); the
    model is meant for images of positive height.  The same text in the
    doubles of the program is [targetSizeDouble]. *)
Definition targetSize (img_width img_height : Z) : Q * Q :=
  let width := inject_Z img_width in
  let height := inject_Z img_height in
  let aspectRatio := (width / height)%Q in
  let wh :=
    if Qgtb width 800 then
      let width := 800%Q in
      let height := (width / aspectRatio)%Q in
      (width, height)
    else (width, height) in
  let width := fst wh in
  let height := snd wh in
  if Qgtb height 800 then
    let height := 800%Q in
    let width := (height * aspectRatio)%Q in
    (width, height)
  else (width, height).

(** What the browser answers to the calls of [loadImage].  The fetch
    either gives a blob or rejects: a fetch that stays pending for ever
    is not represented. *)
Record ImageEnv := mkImageEnv {
  (** [fetch(url)] then [response.blob()]; [None] when it rejects *)
  fetch : string -> option Blob;
  (** [reader.readAsDataURL(blob)]: the unmodified bytes as a data URL *)
  readAsDataURL : Blob -> string;
  (** decoding by [new Image()]: [img.width] and [img.height] when
      [onload] fires, [None] when the bytes do not decode *)
  decode : Blob -> option (Z * Z);
  (** whether [canvas.getContext('2d')] is not null *)
  getContext2d : bool;
  (** [canvas.toDataURL(mime, quality)] after the image is drawn *)
  toDataURL : Blob -> Q -> Q -> string -> Q -> string
}.

Definition loadImage (env : ImageEnv) (url : string) : Async string :=
  emit (Fetch url) ;;
  match fetch env url with
  | None => reject
  | Some blob =>
      if (size blob >? maxImageSize)%Z then
        emit (ImageSrc blob) ;;
        match decode env blob with
        | None => never
        | Some (img_width, img_height) =>
            let wh := targetSize img_width img_height in
            if getContext2d env then
              emit (DrawImage (fst wh) (snd wh)) ;;
              emit (ToDataURL "image/jpeg" 0.7) ;;
              resolve (toDataURL env blob (fst wh) (snd wh) "image/jpeg" 0.7%Q)
            else resolve ""
        end
      else
        emit (ReadAsDataURL blob) ;;
        resolve (readAsDataURL env blob)
  end.

(** ** Input records *)

(** [interface FormData] (the same in both modules). *)
Record FormData := mkFormData {
  company : string;
  site_location : string;
  contact_person : string;
  department : string;
  phone : string;
  email : string;
  pump_model : string;
  serial_number : string;
  manufacture_year : string;
  operating_hours : string;
  last_service_date : string;
  installation_date : string;
  temperature : string;
  flow_rate : string;
  suction_pressure : string;
  discharge_pressure : string;
  total_head : string;
  pumped_medium : string;
  service_reason : string;
  training_hours : option string
}.

(** ** The pdfmake document tree *)

(** [width: number | 'auto' | '*'] *)
Inductive Width := WNum (n : Q) | WAuto | WStar.

(** The properties that an object literal of the tree or of the style
    table may carry next to its content key. *)
Inductive Property :=
| width (w : Width)
| height (h : Q)
| fit (w h : Q)
| style (name : string)
| margin (m : list Q)
| alignment (a : string)
| unbreakable (b : bool)
| font (family : string)
| fontSize (n : Q)
| lineHeight (n : Q)
| bold (b : bool)
| color (c : string)
| fillColor (c : string).

Inductive CanvasElement :=
| rect (x y w h : Q) (lineWidth : option Q) (lineColor : option string)
       (r : option Q) (fill : option string)
| line (x1 y1 x2 y2 : Q) (lineWidth : Q) (lineColor : string).

(** A table layout given as an object: [hLineWidth] receives the index of
    the rule and [node.table.body.length]; the other members are constant
    functions in the source. *)
Record CustomTableLayout := mkLayout {
  hLineWidth : Z -> Z -> Q;
  vLineWidth : Q;
  hLineColor : string;
  paddingLeft : Q;
  paddingRight : Q;
  paddingTop : Q;
  paddingBottom : Q
}.

(** [layout: string | CustomTableLayout] *)
Inductive Layout :=
| LayoutName (name : string)
| LayoutObject (l : CustomTableLayout).

Inductive Content :=
| Text (text : string) (props : list Property)
| Image (image : string) (props : list Property)
| Columns (columns : list Content) (props : list Property)
| Stack (stack : list Content) (props : list Property)
| Table (layout : Layout) (widths : list string) (headerRows : Z)
        (body : list (list Content))
| Canvas (canvas : list CanvasElement) (props : list Property)
| Ul (ul : list string) (props : list Property).

Record Info := mkInfo {
  title : string;
  author : string;
  subject : string;
  keywords : string
}.

Record DocDefinition := mkDoc {
  info : option Info;
  pageSize : string;
  pageMargins : list Q;
  defaultStyle : list Property;
  content : list Content;
  styles : list (string * list Property)
}.

(** ** Observations on a document tree *)

(** Every string the tree shows, in reading order. *)
Fixpoint texts (c : Content) : list string :=
  match c with
  | Text t _ => [t]
  | Image _ _ => []
  | Columns cs _ => flat_map texts cs
  | Stack cs _ => flat_map texts cs
  | Table _ _ _ body => flat_map (flat_map texts) body
  | Canvas _ _ => []
  | Ul items _ => items
  end.

Definition doc_texts (d : DocDefinition) : list string :=
  flat_map texts (content d).

(** [createCheckboxItem] (the same text in both modules): a 10 by 10
    square, the two strokes of the check mark when [checked], and the
    label next to them. *)
Definition createCheckboxItem (checked : bool) (text : string) : Content :=
  let box := rect 0 0 10 10 (Some 1%Q) (Some "#374151") None None in
  let checkmark :=
    if checked then
      [ line 2 5 4 8 1.5 "#1F2937";
        line 4 8 8 2 1.5 "#1F2937" ]
    else [] in
  Columns
    [ Canvas (box :: checkmark) [width (WNum 12)];
      Text text [width WAuto; margin [5; -2; 0; 0]%Q] ]
    [margin [0; 0; 0; 8]%Q].

(** [tableLayout.lightHorizontalLines] (the same text in both modules). *)
Definition lightHorizontalLines : CustomTableLayout :=
  {| hLineWidth := fun i body_length =>
       if ((i =? 0) || (i =? body_length))%Z then 0%Q else 0.5%Q;
     vLineWidth := 0;
     hLineColor := "#E5E7EB";
     paddingLeft := 0;
     paddingRight := 0;
     paddingTop := 8;
     paddingBottom := 8 |}.

(** The pass after the tree is built:
    [content.forEach(item => { if (typeof item === 'object' && 'table' in item) item.layout = ... })].
    It visits the items of the [content] array itself. *)
Definition applyTableLayout (item : Content) : Content :=
  match item with
  | Table _ widths headerRows body =>
      Table (LayoutObject lightHorizontalLines) widths headerRows body
  | _ => item
  end.

Definition applyTableLayouts (d : DocDefinition) : DocDefinition :=
  {| info := info d;
     pageSize := pageSize d;
     pageMargins := pageMargins d;
     defaultStyle := defaultStyle d;
     content := map applyTableLayout (content d);
     styles := styles d |}.

(** The rendering engine: [pdfMake.createPdf(docDefinition).getBlob(cb)]. *)
Record Browser := mkBrowser {
  (** [typeof window !== 'undefined'] *)
  window_defined : bool;
  images : ImageEnv;
  (** [new Date().toLocaleDateString('en-GB', {...})], as dd/mm/yyyy *)
  localeDate : string;
  (** the blob handed to the callback, a throw, or no callback at all *)
  getBlob : DocDefinition -> Outcome Blob
}.

Definition createPdf_getBlob (browser : Browser) (docDefinition : DocDefinition)
    : Async Blob :=
  ([CreatePdf], browser.(getBlob) docDefinition).

(** * The full variant: src/utils/generatePDF.ts *)

Module Full.

Local Open Scope Q_scope.

(** [interface Checkboxes] *)
Record Checkboxes := mkCheckboxes {
  system_flush : bool;
  safety_training : bool;
  harmless_form : bool;
  sds : bool;
  alignment_report : bool;
  operation_records : bool;
  power_isolated : bool;
  valves_locked : bool;
  pump_drained : bool;
  auxiliary_disconnected : bool;
  coupling_guard_removed : bool;
  coupling_disconnected : bool;
  pump_cleaned : bool;
  openings_protected : bool;
  photos_taken : bool
}.

(** The label of the safety-training item, a template literal with a
    nested conditional template. *)
Definition safetyTrainingLabel (formData : FormData) (language : Language) : string :=
  ifEn language
    ("Safety Training required? " ++
       (if truthy_opt formData.(training_hours)
        then "(" ++ interpolate formData.(training_hours) ++ " hours)"
        else ""))
    ("ต้องรารการฝึกอบรมความปลอดภัยหรือไม่? " ++
       (if truthy_opt formData.(training_hours)
        then "(" ++ interpolate formData.(training_hours) ++ " ชั่วโมง)"
        else "")).

Definition preServiceChecklist (formData : FormData) (checkboxes : Checkboxes)
    (language : Language) : list Content :=
  [ createCheckboxItem checkboxes.(system_flush)
      (ifEn language "System flushed (if hazardous/hardening materials)" "ล้างระบบแล้ว (กรณีสารอันตราย/สารที่แข็งตัว)");
    createCheckboxItem checkboxes.(safety_training)
      (safetyTrainingLabel formData language);
    createCheckboxItem checkboxes.(harmless_form)
      (ifEn language "Declaration of Harmlessness form (in the operation manual)" "แบบฟอร์มการประกาศความไม่เป็นอันตราย (ในคู่มือการใช้าน)");
    createCheckboxItem checkboxes.(sds)
      (ifEn language "Safety Data Sheet (SDS) available" "มีเอกสารขมูลความปลอดภัย (SDS)");
    createCheckboxItem checkboxes.(alignment_report)
      (ifEn language "Alignment report available" "มีรายงานการปรับแนวเพลา");
    createCheckboxItem checkboxes.(operation_records)
      (ifEn language "Operation records available" "มีบันทึกการทำงาน") ].

Module sectionTitles.
Definition customerDetails :=
    {| en := "1. Customer Details"; th := "1. รายละเอียดลูกค้า" |}.
Definition pumpInfo :=
    {| en := "2. Pump Information"; th := "2. ข้อมูลปั๊ม" |}.
Definition operatingConditions :=
    {| en := "3. Operating Conditions"; th := "3. สภาวะการทำงานจริง" |}.
Definition pumpPreparation :=
    {| en := "4. Pump Preparation (By Customer or WFA)";
       th := "4. การเตรียมปั๊ม (โดยลูกค้าหรือ WFA)" |}.
Definition preparationChecklist :=
    {| en := "5. Customer Preparation Checklist";
       th := "5. รายการเตรียมความพร้มองลูกค้า" |}.
Definition preServiceRequirements :=
    {| en := "Pre-Service Requirements"; th := "ข้อกำหนดก่อนเข้าซ่อม" |}.
Definition importantNotes :=
    {| en := "Important Notes:"; th := "หลายเหตุสำคัญ:" |}.
End sectionTitles.

Definition importantNotes : list Bilingual :=
  [ {| en := "All work must be performed by qualified personnel only";
       th := "งานทั้งหมดต้องดำเนินการโดยบุคลากรที่มีคุณสมบัติเท่านั้น" |};
    {| en := "Follow all safety protocols and guidelines";
       th := "ปฏิบัติตามขั้นตอนและแนวทางด้านความปลอดภัยทั้งหมด" |};
    {| en := "Maintain proper documentation throughout the service process";
       th := "รักษาเอกสารที่เหมาะสมตลอดกระบวนการให้บริการ" |};
    {| en := "Use only OEM parts or approved equivalents";
       th := "ใช้เฉพาะชิ้นส่วน OEM หรือชิ้นส่วนที่ได้รับการอนุมัติเท่านั้น" |};
    {| en := "Follow all safety protocols, especially regarding magnetic coupling hazards";
       th := "ปฏิบัติตามโปรโตคอลความปลอดภัยทั้งหมด โดยเฉพาะอย่างยิ่งเกี่ยวกับอันตรายจากการเชื่อมต่อแม่เหล็ก" |};
    {| en := "Refer to manufacturer's manual for specific torque values and clearances";
       th := "อ้างอิงคู่มือของผู้ผลิตสำหรับค่าแรงบิดและระยะห่างที่เฉพาะเจาะจง" |};
    {| en := "Required for magnetic coupling handling - keep sensitive items at minimum 1m distance";
       th := "จำเป็นสำหรับการจัดการการเชื่อมต่อแม่เหล็ก - เก็บรักษาอุปกรณ์ที่มีความอ่อนไหวในระยะห่างอย่างน้อย 1 เมตร" |} ].

Module docHeader.
Definition company :=
    {| en := "Water Field Asia Co., Ltd."; th := "บริษท วอเตอร์ฟิลด์ เอเชีย จำกัด" |}.
Definition address1 :=
    {| en := "623 Soi Onnut 70/1 Sub 2"; th := "623 ซอยอ่อนนุช 70/1 แยก 2" |}.
Definition address2 :=
    {| en := "Pravet Sub-District, Pravet District,"; th := "แขวงประเวศ เขตประเวศ" |}.
Definition address3 :=
    {| en := "Bangkok 10250"; th := "กรุงเทพมหานคร 10250" |}.
Definition phone :=
    {| en := "Tel.: +66 2320 1994"; th := "โทร: +66 2320 1994" |}.
Definition docNo :=
    {| en := "Document No: FM-WFA-SER-057"; th := "เลขที่เอกสาร: FM-WFA-SER-057" |}.
Definition revision :=
    {| en := "Revision: 00"; th := "แก้ไขครั้งที่: 00" |}.
(** [localeDate] is [new Date().toLocaleDateString('en-GB', ...)]. *)
Definition date (localeDate : string) :=
    {| en := "Date: " ++ split_join_slash_dot localeDate;
       th := "วันที่: " ++ split_join_slash_dot localeDate |}.
End docHeader.

Module translations.
Definition company := {| en := "Company:"; th := "บริษท:" |}.
Definition siteLocation := {| en := "Site Location:"; th := "สถานที่ติดตั้ง:" |}.
Definition contactPerson := {| en := "Contact Person:"; th := "ผู้ติดต่อ:" |}.
Definition department := {| en := "Department:"; th := "แผนก:" |}.
Definition phone := {| en := "Phone:"; th := "โทรศัพท์:" |}.
Definition email := {| en := "Email:"; th := "อีเมล:" |}.
Definition pumpModel := {| en := "Pump Model:"; th := "รุ่นปั๊ม:" |}.
Definition serialNumber := {| en := "Serial Number:"; th := "หมายเลขเครื่อง:" |}.
Definition yearOfManufacture := {| en := "Year of Manufacture:"; th := "ปีท่ผลิต:" |}.
Definition operatingHours := {| en := "Operating Hours:"; th := "ชั่วโมงการทำงาน:" |}.
Definition lastServiceDate := {| en := "Last Service Date:"; th := "วันที่เข้าซ่อมครั้งล่าสุด:" |}.
Definition installationDate := {| en := "Installation Date:"; th := "วันที่ติดตั้ง:" |}.
Definition temperature := {| en := "Temperature (°C):"; th := "อุณหภูมิ (°C):" |}.
Definition flowRate := {| en := "Flow Rate (m³/h):"; th := "อัตราการไหล (m³/h):" |}.
Definition suctionPressure := {| en := "Suction Pressure (bar):"; th := "แรงดันด้านดูด (bar):" |}.
Definition dischargePressure := {| en := "Discharge Pressure (bar):"; th := "แรงดันด้านส่ง (bar):" |}.
Definition totalHead := {| en := "Total Head (m):"; th := "เฮดรมม (m):" |}.
Definition pumpedMedium := {| en := "Pumped Medium:"; th := "ของเหลวที่สูบ:" |}.
Definition serviceReason :=
    {| en := "Description of Issues/Reason for Service:";
       th := "รายละเอียดปัญหา/เหตุผลในการเข้าซ่ม:" |}.
End translations.

Definition pumpPreparationChecklist (checkboxes : Checkboxes) (language : Language)
    : list Content :=
  [ createCheckboxItem checkboxes.(power_isolated)
      (ifEn language "Pump isolated from power supply (customer responsibility)" "ปั๊มถูกตัดแยกจากแหล่งจ่ายไฟ (ความรับผิดชอบของลูกค้า)");
    createCheckboxItem checkboxes.(valves_locked)
      (ifEn language "Suction/discharge valves locked (customer responsibility)" "วาล์วดูด/จ่ายถูกล็อค (ความรับผิดชอบของลูกค้า)");
    createCheckboxItem checkboxes.(pump_drained)
      (ifEn language "Pump drained (customer responsibility)" "ระบายของเหลวออกจากปั๊ม (ความรับผิดชอบของลูกค้า)");
    createCheckboxItem checkboxes.(auxiliary_disconnected)
      (ifEn language "Auxiliary systems disconnected (e.g., external sensors)" "ระบบเสริมถูกตัดการเชื่อมต่อ (เช่น เซ็นเอรภายนอก)");
    createCheckboxItem checkboxes.(coupling_guard_removed)
      (ifEn language "Coupling guard removed" "ฝาครอบคัปปลิ��งถูกถอดออก");
    createCheckboxItem checkboxes.(coupling_disconnected)
      (ifEn language "Coupling disconnected" "คัปปลิ้งถูกถอดออก");
    createCheckboxItem checkboxes.(pump_cleaned)
      (ifEn language "Pump cleaned externally" "ทำความสะอาดภายนอกปั๊ม");
    createCheckboxItem checkboxes.(openings_protected)
      (ifEn language "All openings protected" "ช่องเปิดทั้งหมดได้รับการป้องกัน");
    createCheckboxItem checkboxes.(photos_taken)
      (ifEn language "Photographs taken (if possible)" "ถ่ายภาพ (ถ้าเป็นไปได้)") ].

(** [const docDefinition: TDocumentDefinitions = { ... }] *)
Definition docDefinition (formData : FormData) (checkboxes : Checkboxes)
    (language : Language) (logoBase64 qrBase64 localeDate : string) : DocDefinition :=
  {| info := None;
     pageSize := "A4";
     pageMargins := [40; 40; 40; 60];
     defaultStyle :=
       [font "Roboto"; fontSize 11; lineHeight 1.2; color "#1F2937"];
     content :=
       [ (* Company header *)
         Columns
           [ Stack
               [ Image logoBase64 [width (WNum 120); height 60; margin [0; 0; 0; 10]];
                 Text docHeader.company.[language] [style "headerCompany"];
                 Text docHeader.address1.[language] [style "headerAddress"];
                 Text docHeader.address2.[language] [style "headerAddress"; margin [0; 10; 0; 0]];
                 Text docHeader.address3.[language] [style "headerAddress"; margin [0; 10; 0; 0]];
                 Text docHeader.phone.[language] [style "headerAddress"; margin [0; 10; 0; 0]] ]
               [width WStar];
             Stack
               [ Stack
                   [ Text docHeader.docNo.[language] [style "headerDoc"];
                     Text docHeader.revision.[language] [style "headerDoc"; margin [0; 10; 0; 0]];
                     Text (docHeader.date localeDate).[language] [style "headerDoc"; margin [0; 10; 0; 0]] ]
                   [];
                 Image qrBase64
                   [width (WNum 50); height 50; alignment "right"; margin [0; 35; 0; 0]] ]
               [width WAuto; margin [40; 0; 0; 0]] ]
           [margin [0; 0; 0; 20]];
         (* Customer Details section *)
         Stack
           [ Text sectionTitles.customerDetails.[language] [style "sectionHeader"];
             Table (LayoutName "lightHorizontalLines") ["30%"; "70%"] 0%Z
               [ [Text translations.company.[language] [style "label"]; Text (formData.(company) ||| "-") []];
                 [Text translations.siteLocation.[language] [style "label"]; Text (formData.(site_location) ||| "-") []];
                 [Text translations.contactPerson.[language] [style "label"]; Text (formData.(contact_person) ||| "-") []];
                 [Text translations.department.[language] [style "label"]; Text (formData.(department) ||| "-") []];
                 [Text translations.phone.[language] [style "label"]; Text (formData.(phone) ||| "-") []];
                 [Text translations.email.[language] [style "label"]; Text (formData.(email) ||| "-") []] ] ]
           [unbreakable true];
         (* Pump Information section *)
         Stack
           [ Text sectionTitles.pumpInfo.[language] [style "sectionHeader"; margin [0; 20; 0; 10]];
             Table (LayoutName "lightHorizontalLines") ["30%"; "70%"] 0%Z
               [ [Text translations.pumpModel.[language] [style "label"]; Text (formData.(pump_model) ||| "-") []];
                 [Text translations.serialNumber.[language] [style "label"]; Text (formData.(serial_number) ||| "-") []];
                 [Text translations.yearOfManufacture.[language] [style "label"]; Text (formData.(manufacture_year) ||| "-") []];
                 [Text translations.operatingHours.[language] [style "label"]; Text (formData.(operating_hours) ||| "-") []];
                 [Text translations.lastServiceDate.[language] [style "label"]; Text (formData.(last_service_date) ||| "-") []];
                 [Text translations.installationDate.[language] [style "label"]; Text (formData.(installation_date) ||| "-") []] ] ]
           [unbreakable true];
         (* Operating Conditions section *)
         Stack
           [ Text sectionTitles.operatingConditions.[language] [style "sectionHeader"; margin [0; 20; 0; 10]];
             Table (LayoutName "lightHorizontalLines") ["30%"; "70%"] 0%Z
               [ [Text translations.temperature.[language] [style "label"]; Text (formData.(temperature) ||| "-") []];
                 [Text translations.flowRate.[language] [style "label"]; Text (formData.(flow_rate) ||| "-") []];
                 [Text translations.suctionPressure.[language] [style "label"]; Text (formData.(suction_pressure) ||| "-") []];
                 [Text translations.dischargePressure.[language] [style "label"]; Text (formData.(discharge_pressure) ||| "-") []];
                 [Text translations.totalHead.[language] [style "label"]; Text (formData.(total_head) ||| "-") []];
                 [Text translations.pumpedMedium.[language] [style "label"]; Text (formData.(pumped_medium) ||| "-") []] ];
             Text translations.serviceReason.[language] [style "label"; margin [0; 10; 0; 5]];
             Text (formData.(service_reason) ||| "-") [margin [0; 0; 0; 20]] ]
           [unbreakable true];
         (* Pump Preparation section *)
         Stack
           [ Text sectionTitles.pumpPreparation.[language] [style "sectionHeader"; margin [0; 20; 0; 10]];
             Stack (pumpPreparationChecklist checkboxes language) [margin [0; 10; 0; 20]] ]
           [unbreakable true];
         (* Customer Preparation Checklist section *)
         Stack
           [ Text sectionTitles.preparationChecklist.[language] [style "sectionHeader"; margin [0; 20; 0; 10]];
             Stack (preServiceChecklist formData checkboxes language) [margin [0; 10; 0; 20]] ]
           [unbreakable true];
         (* Important Notes section *)
         Stack
           [ Text sectionTitles.importantNotes.[language] [style "subHeader"; margin [0; 20; 0; 10]];
             Ul (map (fun note => note.[language]) importantNotes) [style "list"] ]
           [unbreakable true] ];
     styles :=
       [ ("title", [fontSize 20; bold true; alignment "center"; color "#111827"; margin [0; 0; 0; 20]]);
         ("headerCompany", [fontSize 14; bold true; color "#111827"; margin [0; 0; 0; 10]]);
         ("headerAddress", [fontSize 9; color "#4B5563"; lineHeight 1.2]);
         ("headerDoc", [fontSize 9; color "#4B5563"; lineHeight 1.2; alignment "right"]);
         ("sectionHeader", [fontSize 14; bold true; color "#111827"; fillColor "#F9FAFB"; margin [10; 20; 10; 10]]);
         ("subHeader", [fontSize 12; bold true; color "#374151"; margin [0; 15; 0; 8]]);
         ("label", [fontSize 11; bold true; color "#374151"]);
         ("list", [fontSize 11; color "#4B5563"; lineHeight 1.6; margin [20; 0; 20; 0]]) ] |}.

(** The tree handed to [pdfMake.createPdf]: the definition after the
    pass that applies the table layouts. *)
Definition producedDocument (formData : FormData) (checkboxes : Checkboxes)
    (language : Language) (logoBase64 qrBase64 localeDate : string) : DocDefinition :=
  applyTableLayouts
    (docDefinition formData checkboxes language logoBase64 qrBase64 localeDate).

(** [export async function generatePDF(formData, checkboxes, language)] *)
Definition generatePDF (browser : Browser) (formData : FormData)
    (checkboxes : Checkboxes) (language : Language) : Async (option Blob) :=
  if negb browser.(window_defined) then resolve None
  else
    emit (SetFonts ["Roboto"]) ;;
    loaded <- Promise_all (loadImage browser.(images) "/Logo.png")
                          (loadImage browser.(images) "/QR.jpeg") ;;
    let logoBase64 := fst loaded in
    let qrBase64 := snd loaded in
    blob <- createPdf_getBlob browser
              (producedDocument formData checkboxes language logoBase64 qrBase64
                 browser.(localeDate)) ;;
    resolve (Some blob).

End Full.

(** * The pre-service-only variant: the second generatePDF module *)

Module PreServiceOnly.

Local Open Scope Q_scope.

(** [interface Checkboxes] *)
Record Checkboxes := mkCheckboxes {
  system_flush : bool;
  safety_training : bool;
  harmless_form : bool;
  sds : bool;
  alignment_report : bool;
  operation_records : bool
}.

Definition safetyTrainingLabel (formData : FormData) (language : Language) : string :=
  ifEn language
    ("Safety Training required? " ++
       (if truthy_opt formData.(training_hours)
        then "(" ++ interpolate formData.(training_hours) ++ " hours)"
        else ""))
    ("ต้องการการฝึกอบรมความปลอดภัยหรือไม่? " ++
       (if truthy_opt formData.(training_hours)
        then "(" ++ interpolate formData.(training_hours) ++ " ชั่วโมง)"
        else "")).

Definition preServiceChecklist (formData : FormData) (checkboxes : Checkboxes)
    (language : Language) : list Content :=
  [ createCheckboxItem checkboxes.(system_flush)
      (ifEn language "System flushed (if hazardous/hardening materials)" "ล้างระบบแล้ว (กรณีสารอันตราย/สารที่แข็งตัว)");
    createCheckboxItem checkboxes.(safety_training)
      (safetyTrainingLabel formData language);
    createCheckboxItem checkboxes.(harmless_form)
      (ifEn language "Declaration of Harmlessness form (in the operation manual)" "แบบฟอร์มการประกาศความไม่เป็นอันตราย (ในคู่มือการใช้งาน)");
    createCheckboxItem checkboxes.(sds)
      (ifEn language "Safety Data Sheet (SDS) available" "มีเอกสารข้อมูลความปลอดภัย (SDS)");
    createCheckboxItem checkboxes.(alignment_report)
      (ifEn language "Alignment report available" "มีรายงานการปรับแนวเพลา");
    createCheckboxItem checkboxes.(operation_records)
      (ifEn language "Operation records available" "มีบันทึกการทำงาน") ].

Module sectionTitles.
Definition customerDetails :=
    {| en := "1. Customer Details"; th := "1. รายละเอียดลูกค้า" |}.
Definition pumpInfo :=
    {| en := "2. Pump Information"; th := "2. ข้อมูลปั๊ม" |}.
Definition operatingConditions :=
    {| en := "3. Operating Conditions"; th := "3. สภาวะการทำงานจริง" |}.
Definition preparationChecklist :=
    {| en := "4. Customer Preparation Checklist";
       th := "4. รายการเตรียมความพร้อมของลูกค้า" |}.
Definition preServiceRequirements :=
    {| en := "Pre-Service Requirements"; th := "ข้อกำหนดก่อนเข้าซ่อม" |}.
Definition importantNotes :=
    {| en := "Important Notes:"; th := "หมายเหตุสำคัญ:" |}.
End sectionTitles.

Definition importantNotes : list Bilingual :=
  [ {| en := "All work must be performed by qualified personnel only";
       th := "งทั้งหมดต้องดำเนิการโดยบุคลากรที่มีคุณสมบัติเท่านั้น" |};
    {| en := "Maintain proper documentation throughout the service process";
       th := "รักษาเอกสารที่เหมาะสมตลอดกระบวนการให้บริการ" |};
    {| en := "Use only OEM parts or approved equivalents";
       th := "ใช้เฉพาะชิ้นส่วน OEM หรือชิ้นส่วนที่ได้รับการอนุมัติเท่านั้น" |};
    {| en := "Follow all safety protocols, especially regarding magnetic coupling hazards";
       th := "ปฏิบัติตามโปรโตคอลความปลอดภัยทั้งหมด โดยเฉพาะอย่างยิ่งเกี่ยวกับอันตรายจากการเชื่อมต่อแม่เหล็ก" |};
    {| en := "Refer to manufacturer's manual for specific torque values and clearances";
       th := "อ้างอิงคู่มือของผู้ผลิตสำหรับค่าแรงบิดและระยะห่างที่เฉพาะเจาะจ" |} ].

Module translations.
Definition company := {| en := "Company:"; th := "บริษัท:" |}.
Definition siteLocation := {| en := "Site Location:"; th := "สถานที่ติดตั้ง:" |}.
Definition contactPerson := {| en := "Contact Person:"; th := "ผู้ติดต่อ:" |}.
Definition department := {| en := "Department:"; th := "แผนก:" |}.
Definition phone := {| en := "Phone:"; th := "โทรศัพท์:" |}.
Definition email := {| en := "Email:"; th := "อีเมล:" |}.
Definition pumpModel := {| en := "Pump Model:"; th := "รุ่นปั๊ม:" |}.
Definition serialNumber := {| en := "Serial Number:"; th := "หมายเลขเครื่อง:" |}.
Definition yearOfManufacture := {| en := "Year of Manufacture:"; th := "ปีที่ผลิต:" |}.
Definition operatingHours := {| en := "Operating Hours:"; th := "ชั่วโมงการทำงาน:" |}.
Definition lastServiceDate := {| en := "Last Service Date:"; th := "วันที่เข้าซ่อมครั้งล่าสุด:" |}.
Definition installationDate := {| en := "Installation Date:"; th := "วันที่ติดตั้ง:" |}.
Definition temperature := {| en := "Temperature (°C):"; th := "อุณหภูมิ (°C):" |}.
Definition flowRate := {| en := "Flow Rate (m³/h):"; th := "อัตราการไล (m³/h):" |}.
Definition suctionPressure := {| en := "Suction Pressure (bar):"; th := "แรงดันด้านดูด (bar):" |}.
Definition dischargePressure := {| en := "Discharge Pressure (bar):"; th := "แรงดันด้านส่ง (bar):" |}.
Definition totalHead := {| en := "Total Head (m):"; th := "เฮดรวม (m):" |}.
Definition pumpedMedium := {| en := "Pumped Medium:"; th := "ของเหลวที่สูบ:" |}.
Definition serviceReason :=
    {| en := "Description of Issues/Reason for Service:";
       th := "รายละเอียดปัญหา/เหตุผลในการเข้าซ่อม:" |}.
End translations.

(** [const docDefinition: TDocumentDefinitions = { ... }] *)
Definition docDefinition (formData : FormData) (checkboxes : Checkboxes)
    (language : Language) (logoBase64 qrBase64 : string) : DocDefinition :=
  {| info :=
       Some {| title := ifEn language "Pump Service Checklist" "รายการตรวจสอบการบริการปั๊ม";
               author := "Water Field Asia Co., Ltd.";
               subject := ifEn language "Pre-Service Requirements" "ข้อกำหนดก่อนเข้าซ่อม";
               keywords := "pump, service, checklist" |};
     pageSize := "A4";
     pageMargins := [40; 40; 40; 60];
     defaultStyle :=
       [ font (ifEn language "Roboto" "THSarabunNew");
         fontSize (ifEn language 11 13);
         lineHeight 1.2;
         color "#1F2937" ];
     content :=
       [ (* Company header *)
         Columns
           [ Image logoBase64 [width (WNum 200); fit 200 100; margin [0; 0; 20; 0]];
             Stack
               [ Text (ifEn language "Water Field Asia Co., Ltd." "บริษัท วอเตอร์ฟิลด์ เอเชีย จำกัด") [style "headerCompany"];
                 Text (ifEn language "623 Soi Onnut 70/1 Sub 2" "623 ซอยอ่อนนุช 70/1 แยก 2") [style "headerAddress"];
                 Text (ifEn language "Pravet Sub-District, Pravet District," "แขวงประเวศ เขตประเวศ") [style "headerAddress"];
                 Text (ifEn language "Bangkok 10250" "กรุงเทพมหานคร 10250") [style "headerAddress"];
                 Text (ifEn language "Tel.: +66 2320 1994" "โทร: +66 2320 1994") [style "headerAddress"] ]
               [width WStar; margin [0; 5; 0; 0]];
             Stack
               [ Text (ifEn language "Document No: FM-WFA-SER-057" "เลขที่เอกสาร: FM-WFA-SER-057") [style "headerDoc"];
                 Text (ifEn language "Revision: 00" "แก้ไขครั้งที่: 00") [style "headerDoc"];
                 Text (ifEn language "Date: 15.11.2024" "วันที่: 15.11.2024") [style "headerDoc"];
                 Image qrBase64 [width (WNum 80); margin [0; 10; 0; 0]; alignment "right"] ]
               [width WAuto; margin [20; 5; 0; 0]] ]
           [margin [0; 0; 0; 30]];
         (* Title with background *)
         Canvas [rect 0 0 515 40 None None (Some 4) (Some "#F3F4F6")] [];
         Text (ifEn language "Pump Service Checklist" "รายการตรวจ��อบการบริการปั๊ม")
           [style "title"; margin [0; -30; 0; 30]];
         (* 1. Customer Details *)
         Text sectionTitles.customerDetails.[language] [style "sectionHeader"];
         Table (LayoutName "lightHorizontalLines") ["30%"; "70%"] 0%Z
           [ [Text translations.company.[language] [style "label"]; Text (formData.(company) ||| "-") []];
             [Text translations.siteLocation.[language] [style "label"]; Text (formData.(site_location) ||| "-") []];
             [Text translations.contactPerson.[language] [style "label"]; Text (formData.(contact_person) ||| "-") []];
             [Text translations.department.[language] [style "label"]; Text (formData.(department) ||| "-") []];
             [Text translations.phone.[language] [style "label"]; Text (formData.(phone) ||| "-") []];
             [Text translations.email.[language] [style "label"]; Text (formData.(email) ||| "-") []] ];
         (* 2. Pump Information *)
         Text sectionTitles.pumpInfo.[language] [style "sectionHeader"; margin [0; 20; 0; 10]];
         Table (LayoutName "lightHorizontalLines") ["30%"; "70%"] 0%Z
           [ [Text translations.pumpModel.[language] [style "label"]; Text (formData.(pump_model) ||| "-") []];
             [Text translations.serialNumber.[language] [style "label"]; Text (formData.(serial_number) ||| "-") []];
             [Text translations.yearOfManufacture.[language] [style "label"]; Text (formData.(manufacture_year) ||| "-") []];
             [Text translations.operatingHours.[language] [style "label"]; Text (formData.(operating_hours) ||| "-") []];
             [Text translations.lastServiceDate.[language] [style "label"]; Text (formData.(last_service_date) ||| "-") []];
             [Text translations.installationDate.[language] [style "label"]; Text (formData.(installation_date) ||| "-") []] ];
         (* 3. Operating Conditions *)
         Text sectionTitles.operatingConditions.[language] [style "sectionHeader"; margin [0; 20; 0; 10]];
         Table (LayoutName "lightHorizontalLines") ["30%"; "70%"] 0%Z
           [ [Text translations.temperature.[language] [style "label"]; Text (formData.(temperature) ||| "-") []];
             [Text translations.flowRate.[language] [style "label"]; Text (formData.(flow_rate) ||| "-") []];
             [Text translations.suctionPressure.[language] [style "label"]; Text (formData.(suction_pressure) ||| "-") []];
             [Text translations.dischargePressure.[language] [style "label"]; Text (formData.(discharge_pressure) ||| "-") []];
             [Text translations.totalHead.[language] [style "label"]; Text (formData.(total_head) ||| "-") []];
             [Text translations.pumpedMedium.[language] [style "label"]; Text (formData.(pumped_medium) ||| "-") []] ];
         Text translations.serviceReason.[language] [style "label"; margin [0; 10; 0; 5]];
         Text (formData.(service_reason) ||| "-") [margin [0; 0; 0; 20]];
         (* 4. Customer Preparation Checklist *)
         Text sectionTitles.preparationChecklist.[language] [style "sectionHeader"; margin [0; 20; 0; 10]];
         Text sectionTitles.preServiceRequirements.[language] [style "subHeader"; margin [0; 10; 0; 10]] ]
       ++ preServiceChecklist formData checkboxes language
       ++ [ Text sectionTitles.importantNotes.[language] [style "subHeader"; margin [0; 20; 0; 10]];
            Ul (map (fun note => note.[language]) importantNotes) [style "list"] ];
     styles :=
       [ ("title", [fontSize 20; bold true; alignment "center"; color "#111827"; margin [0; 0; 0; 20]]);
         ("headerCompany", [fontSize 16; bold true; color "#111827"; margin [0; 0; 0; 8]]);
         ("headerAddress", [fontSize 11; color "#4B5563"; lineHeight 1.6]);
         ("headerDoc", [fontSize 10; color "#4B5563"; lineHeight 1.6; alignment "right"]);
         ("sectionHeader", [fontSize 14; bold true; color "#111827"; fillColor "#F9FAFB"; margin [10; 20; 10; 10]]);
         ("subHeader", [fontSize 12; bold true; color "#374151"; margin [0; 15; 0; 8]]);
         ("label", [fontSize 11; bold true; color "#374151"]);
         ("list", [fontSize 11; color "#4B5563"; lineHeight 1.6; margin [20; 0; 20; 0]]) ] |}.

(** The tree handed to [pdfMake.createPdf]: the definition after the
    pass that applies the table layouts. *)
Definition producedDocument (formData : FormData) (checkboxes : Checkboxes)
    (language : Language) (logoBase64 qrBase64 : string) : DocDefinition :=
  applyTableLayouts
    (docDefinition formData checkboxes language logoBase64 qrBase64).

(** [export async function generatePDF(formData, checkboxes, language)];
    the two dynamic imports of the engine are taken to succeed. *)
Definition generatePDF (browser : Browser) (formData : FormData)
    (checkboxes : Checkboxes) (language : Language) : Async (option Blob) :=
  if negb browser.(window_defined) then resolve None
  else
    loaded <- Promise_all (loadImage browser.(images) "/Logo.png")
                          (loadImage browser.(images) "/QR.jpeg") ;;
    let logoBase64 := fst loaded in
    let qrBase64 := snd loaded in
    emit (SetFonts ["Roboto"; "THSarabunNew"]) ;;
    blob <- createPdf_getBlob browser
              (producedDocument formData checkboxes language logoBase64 qrBase64) ;;
    resolve (Some blob).

End PreServiceOnly.

(** * Observations on documents *)

(** Every table block of the tree, nested ones included, in reading order. *)
Fixpoint tables (c : Content) : list Content :=
  match c with
  | Table _ _ _ body => c :: flat_map (flat_map tables) body
  | Columns cs _ => flat_map tables cs
  | Stack cs _ => flat_map tables cs
  | _ => []
  end.

Definition doc_tables (d : DocDefinition) : list Content :=
  flat_map tables (content d).

(** The rows of a table, each as the list of the texts of its cells. *)
Definition table_rows (c : Content) : list (list string) :=
  match c with
  | Table _ _ _ body => map (flat_map texts) body
  | _ => []
  end.

Definition table_layout (c : Content) : option Layout :=
  match c with
  | Table layout _ _ _ => Some layout
  | _ => None
  end.

(** The second cell of every row of every table. *)
Definition value_cells (d : DocDefinition) : list string :=
  flat_map (fun t => map (fun row => nth 1 row "") (table_rows t)) (doc_tables d).

Fixpoint style_of (props : list Property) : option string :=
  match props with
  | [] => None
  | style name :: _ => Some name
  | _ :: rest => style_of rest
  end.

Fixpoint font_of (props : list Property) : option string :=
  match props with
  | [] => None
  | font family :: _ => Some family
  | _ :: rest => font_of rest
  end.

(** The free paragraphs: text blocks without a style token that stand in
    the content array or in a stack (not in a table, not in a column row). *)
Fixpoint paragraphs (c : Content) : list string :=
  match c with
  | Text t props => match style_of props with None => [t] | Some _ => [] end
  | Stack cs _ => flat_map paragraphs cs
  | _ => []
  end.

Definition doc_paragraphs (d : DocDefinition) : list string :=
  flat_map paragraphs (content d).

(** The check box rows: a canvas followed by its label, side by side. *)
Fixpoint checkbox_rows (c : Content) : list (list CanvasElement * string) :=
  match c with
  | Columns [Canvas glyph _; Text label _] _ => [(glyph, label)]
  | Columns cs _ => flat_map checkbox_rows cs
  | Stack cs _ => flat_map checkbox_rows cs
  | _ => []
  end.

Definition doc_checkbox_rows (d : DocDefinition) : list (list CanvasElement * string) :=
  flat_map checkbox_rows (content d).

(** The square of a check box without its mark. *)
Definition unchecked_glyph : list CanvasElement :=
  [rect 0 0 10 10 (Some 1%Q) (Some "#374151") None None].

(** The bulleted lists of the tree. *)
Fixpoint lists (c : Content) : list (list string) :=
  match c with
  | Ul items _ => [items]
  | Columns cs _ => flat_map lists cs
  | Stack cs _ => flat_map lists cs
  | Table _ _ _ body => flat_map (flat_map lists) body
  | _ => []
  end.

Definition doc_lists (d : DocDefinition) : list (list string) :=
  flat_map lists (content d).

(** The property lists of every block of the tree. *)
Fixpoint block_props (c : Content) : list (list Property) :=
  match c with
  | Text _ props => [props]
  | Image _ props => [props]
  | Columns cs props => props :: flat_map block_props cs
  | Stack cs props => props :: flat_map block_props cs
  | Table _ _ _ body => flat_map (flat_map block_props) body
  | Canvas _ props => [props]
  | Ul _ props => [props]
  end.

(** No block and no named style sets a font family of its own. *)
Definition no_font_override (d : DocDefinition) : Prop :=
  Forall (fun props => font_of props = None) (flat_map block_props (content d))
  /\ Forall (fun entry => font_of (snd entry) = None) (styles d).

(** The font family of the whole document. *)
Definition document_font (d : DocDefinition) : option string :=
  font_of (defaultStyle d).

Fixpoint contains_char (c : ascii) (s : string) : bool :=
  match s with
  | EmptyString => false
  | String a rest => Ascii.eqb a c || contains_char c rest
  end.

(** The form with every field empty and the two all-false checklists. *)
Definition emptyForm : FormData :=
  mkFormData "" "" "" "" "" "" "" "" "" "" "" "" "" "" "" "" "" "" "" (Some "").

Definition acmeForm : FormData :=
  mkFormData "Acme Co" "" "" "" "" "" "" "" "" "" "" "" "" "" "" "" "" "" "" (Some "").

Definition allFalse15 : Full.Checkboxes :=
  Full.mkCheckboxes false false false false false false false false false
                    false false false false false false.

Definition allFalse6 : PreServiceOnly.Checkboxes :=
  PreServiceOnly.mkCheckboxes false false false false false false.

(** * The specification's view of the text sites *)

(** A text site of the document is either a bilingual pair, from which the
    active language selects, or a value that comes from the form. *)
Inductive Site :=
| Bi (pair : Bilingual)
| Data (value : string).

Definition render (language : Language) (s : Site) : string :=
  match s with
  | Bi p => p.[language]
  | Data value => value
  end.

Definition other (language : Language) : Language :=
  match language with
  | En => Th
  | Th => En
  end.

(** At a bilingual site the two languages never show the same string. *)
Definition switches (s : Site) : Prop :=
  match s with
  | Bi p => forall language, p.[language] <> p.[other language]
  | Data _ => True
  end.

(** The placeholder rule in the specification's words: the field itself
    when it is not empty, a dash when it is. *)
Definition placeholder (field : string) : string :=
  if String.eqb field "" then "-" else field.

(** The key/value fields of the form in document order. *)
Definition table_fields (formData : FormData) : list string :=
  [ formData.(company); formData.(site_location); formData.(contact_person);
    formData.(department); formData.(phone); formData.(email);
    formData.(pump_model); formData.(serial_number); formData.(manufacture_year);
    formData.(operating_hours); formData.(last_service_date);
    formData.(installation_date);
    formData.(temperature); formData.(flow_rate); formData.(suction_pressure);
    formData.(discharge_pressure); formData.(total_head); formData.(pumped_medium) ].

Definition pair_of (f : Language -> string) : Bilingual :=
  {| en := f En; th := f Th |}.

(** The text sites of the full variant in reading order. *)
Definition full_sites (formData : FormData) (localeDate : string) : list Site :=
  [ Bi Full.docHeader.company; Bi Full.docHeader.address1;
    Bi Full.docHeader.address2; Bi Full.docHeader.address3;
    Bi Full.docHeader.phone; Bi Full.docHeader.docNo;
    Bi Full.docHeader.revision; Bi (Full.docHeader.date localeDate);
    Bi Full.sectionTitles.customerDetails;
    Bi Full.translations.company; Data (placeholder formData.(company));
    Bi Full.translations.siteLocation; Data (placeholder formData.(site_location));
    Bi Full.translations.contactPerson; Data (placeholder formData.(contact_person));
    Bi Full.translations.department; Data (placeholder formData.(department));
    Bi Full.translations.phone; Data (placeholder formData.(phone));
    Bi Full.translations.email; Data (placeholder formData.(email));
    Bi Full.sectionTitles.pumpInfo;
    Bi Full.translations.pumpModel; Data (placeholder formData.(pump_model));
    Bi Full.translations.serialNumber; Data (placeholder formData.(serial_number));
    Bi Full.translations.yearOfManufacture; Data (placeholder formData.(manufacture_year));
    Bi Full.translations.operatingHours; Data (placeholder formData.(operating_hours));
    Bi Full.translations.lastServiceDate; Data (placeholder formData.(last_service_date));
    Bi Full.translations.installationDate; Data (placeholder formData.(installation_date));
    Bi Full.sectionTitles.operatingConditions;
    Bi Full.translations.temperature; Data (placeholder formData.(temperature));
    Bi Full.translations.flowRate; Data (placeholder formData.(flow_rate));
    Bi Full.translations.suctionPressure; Data (placeholder formData.(suction_pressure));
    Bi Full.translations.dischargePressure; Data (placeholder formData.(discharge_pressure));
    Bi Full.translations.totalHead; Data (placeholder formData.(total_head));
    Bi Full.translations.pumpedMedium; Data (placeholder formData.(pumped_medium));
    Bi Full.translations.serviceReason; Data (placeholder formData.(service_reason));
    Bi Full.sectionTitles.pumpPreparation;
    Bi {| en := "Pump isolated from power supply (customer responsibility)";
          th := "ปั๊มถูกตัดแยกจากแหล่งจ่ายไฟ (ความรับผิดชอบของลูกค้า)" |};
    Bi {| en := "Suction/discharge valves locked (customer responsibility)";
          th := "วาล์วดูด/จ่ายถูกล็อค (ความรับผิดชอบของลูกค้า)" |};
    Bi {| en := "Pump drained (customer responsibility)";
          th := "ระบายของเหลวออกจากปั๊ม (ความรับผิดชอบของลูกค้า)" |};
    Bi {| en := "Auxiliary systems disconnected (e.g., external sensors)";
          th := "ระบบเสริมถูกตัดการเชื่อมต่อ (เช่น เซ็นเอรภายนอก)" |};
    Bi {| en := "Coupling guard removed"; th := "ฝาครอบคัปปลิ��งถูกถอดออก" |};
    Bi {| en := "Coupling disconnected"; th := "คัปปลิ้งถูกถอดออก" |};
    Bi {| en := "Pump cleaned externally"; th := "ทำความสะอาดภายนอกปั๊ม" |};
    Bi {| en := "All openings protected"; th := "ช่องเปิดทั้งหมดได้รับการป้องกัน" |};
    Bi {| en := "Photographs taken (if possible)"; th := "ถ่ายภาพ (ถ้าเป็นไปได้)" |};
    Bi Full.sectionTitles.preparationChecklist;
    Bi {| en := "System flushed (if hazardous/hardening materials)";
          th := "ล้างระบบแล้ว (กรณีสารอันตราย/สารที่แข็งตัว)" |};
    Bi (pair_of (Full.safetyTrainingLabel formData));
    Bi {| en := "Declaration of Harmlessness form (in the operation manual)";
          th := "แบบฟอร์มการประกาศความไม่เป็นอันตราย (ในคู่มือการใช้าน)" |};
    Bi {| en := "Safety Data Sheet (SDS) available"; th := "มีเอกสารขมูลความปลอดภัย (SDS)" |};
    Bi {| en := "Alignment report available"; th := "มีรายงานการปรับแนวเพลา" |};
    Bi {| en := "Operation records available"; th := "มีบันทึกการทำงาน" |};
    Bi Full.sectionTitles.importantNotes ]
  ++ map Bi Full.importantNotes.

(** The text sites of the pre-service-only variant in reading order. *)
Definition preServiceOnly_sites (formData : FormData) : list Site :=
  [ Bi {| en := "Water Field Asia Co., Ltd."; th := "บริษัท วอเตอร์ฟิลด์ เอเชีย จำกัด" |};
    Bi {| en := "623 Soi Onnut 70/1 Sub 2"; th := "623 ซอยอ่อนนุช 70/1 แยก 2" |};
    Bi {| en := "Pravet Sub-District, Pravet District,"; th := "แขวงประเวศ เขตประเวศ" |};
    Bi {| en := "Bangkok 10250"; th := "กรุงเทพมหานคร 10250" |};
    Bi {| en := "Tel.: +66 2320 1994"; th := "โทร: +66 2320 1994" |};
    Bi {| en := "Document No: FM-WFA-SER-057"; th := "เลขที่เอกสาร: FM-WFA-SER-057" |};
    Bi {| en := "Revision: 00"; th := "แก้ไขครั้งที่: 00" |};
    Bi {| en := "Date: 15.11.2024"; th := "วันที่: 15.11.2024" |};
    Bi {| en := "Pump Service Checklist"; th := "รายการตรวจ��อบการบริการปั๊ม" |};
    Bi PreServiceOnly.sectionTitles.customerDetails;
    Bi PreServiceOnly.translations.company; Data (placeholder formData.(company));
    Bi PreServiceOnly.translations.siteLocation; Data (placeholder formData.(site_location));
    Bi PreServiceOnly.translations.contactPerson; Data (placeholder formData.(contact_person));
    Bi PreServiceOnly.translations.department; Data (placeholder formData.(department));
    Bi PreServiceOnly.translations.phone; Data (placeholder formData.(phone));
    Bi PreServiceOnly.translations.email; Data (placeholder formData.(email));
    Bi PreServiceOnly.sectionTitles.pumpInfo;
    Bi PreServiceOnly.translations.pumpModel; Data (placeholder formData.(pump_model));
    Bi PreServiceOnly.translations.serialNumber; Data (placeholder formData.(serial_number));
    Bi PreServiceOnly.translations.yearOfManufacture; Data (placeholder formData.(manufacture_year));
    Bi PreServiceOnly.translations.operatingHours; Data (placeholder formData.(operating_hours));
    Bi PreServiceOnly.translations.lastServiceDate; Data (placeholder formData.(last_service_date));
    Bi PreServiceOnly.translations.installationDate; Data (placeholder formData.(installation_date));
    Bi PreServiceOnly.sectionTitles.operatingConditions;
    Bi PreServiceOnly.translations.temperature; Data (placeholder formData.(temperature));
    Bi PreServiceOnly.translations.flowRate; Data (placeholder formData.(flow_rate));
    Bi PreServiceOnly.translations.suctionPressure; Data (placeholder formData.(suction_pressure));
    Bi PreServiceOnly.translations.dischargePressure; Data (placeholder formData.(discharge_pressure));
    Bi PreServiceOnly.translations.totalHead; Data (placeholder formData.(total_head));
    Bi PreServiceOnly.translations.pumpedMedium; Data (placeholder formData.(pumped_medium));
    Bi PreServiceOnly.translations.serviceReason; Data (placeholder formData.(service_reason));
    Bi PreServiceOnly.sectionTitles.preparationChecklist;
    Bi PreServiceOnly.sectionTitles.preServiceRequirements;
    Bi {| en := "System flushed (if hazardous/hardening materials)";
          th := "ล้างระบบแล้ว (กรณีสารอันตราย/สารที่แข็งตัว)" |};
    Bi (pair_of (PreServiceOnly.safetyTrainingLabel formData));
    Bi {| en := "Declaration of Harmlessness form (in the operation manual)";
          th := "แบบฟอร์มการประกาศความไม่เป็นอันตราย (ในคู่มือการใช้งาน)" |};
    Bi {| en := "Safety Data Sheet (SDS) available"; th := "มีเอกสารข้อมูลความปลอดภัย (SDS)" |};
    Bi {| en := "Alignment report available"; th := "มีรายงานการปรับแนวเพลา" |};
    Bi {| en := "Operation records available"; th := "มีบันทึกการทำงาน" |};
    Bi PreServiceOnly.sectionTitles.importantNotes ]
  ++ map Bi PreServiceOnly.importantNotes.

Definition first_table_rows (d : DocDefinition) : list (list string) :=
  match doc_tables d with
  | t :: _ => table_rows t
  | [] => []
  end.

(** * Sample browsers *)

(** A small image, and one byte more than the threshold allows. *)
Definition smallBlob : Blob :=
  mkBlob [Byte.x89; Byte.x50; Byte.x4e; Byte.x47] "image/png".

Definition largeBlob : Blob :=
  mkBlob (repeat Byte.x00 (Z.to_nat (500 * 1024 + 1))) "image/png".

Definition sampleImages (blob : Blob) (decoded : option (Z * Z)) (context : bool)
    : ImageEnv :=
  {| fetch := fun _ => Some blob;
     readAsDataURL := fun b => "data:" ++ b.(type) ++ ";base64,iVBORw==";
     decode := fun _ => decoded;
     getContext2d := context;
     toDataURL := fun _ _ _ mime _ => "data:" ++ mime ++ ";base64,/9j/" |}.

Definition pdfBlob : Blob :=
  mkBlob [Byte.x25; Byte.x50; Byte.x44; Byte.x46] "application/pdf".

Definition sampleBrowser (window : bool) (env : ImageEnv) : Browser :=
  {| window_defined := window;
     images := env;
     localeDate := "02/11/2026";
     getBlob := fun _ => Resolved pdfBlob |}.

Ltac solve_no_font :=
  split; cbn; repeat (apply Forall_cons; [reflexivity |]); apply Forall_nil.

Ltac solve_switches :=
  repeat (apply Forall_cons; [ try exact I; intros [|]; cbn; discriminate | ]);
  apply Forall_nil.

(** * The specification's two-stage scaling *)

(** "If W > 800, scale both dimensions by 800/W; then, independently, if
    the resulting H > 800, scale both by 800/H": the second factor is
    computed from the dimensions the first stage produced. *)
Definition twoStageScaling (W H : Q) : Q * Q :=
  let stage1 :=
    if Qgtb W 800 then ((W * (800 / W))%Q, (H * (800 / W))%Q) else (W, H) in
  let W1 := fst stage1 in
  let H1 := snd stage1 in
  if Qgtb H1 800 then ((W1 * (800 / H1))%Q, (H1 * (800 / H1))%Q) else (W1, H1).

(** Whether an effect belongs to the decode, resize and re-encode path. *)
Definition resize_event (e : Event) : bool :=
  match e with
  | ImageSrc _ | DrawImage _ _ | ToDataURL _ _ => true
  | _ => false
  end.

(** * Further observations *)

(** The style tokens that the blocks of a tree refer to. *)
Definition style_refs (d : DocDefinition) : list string :=
  flat_map (fun props => match style_of props with Some name => [name] | None => [] end)
           (flat_map block_props (content d)).

Definition style_names (d : DocDefinition) : list string := map fst (styles d).


(** The square with the two strokes of the check mark. *)
Definition checked_glyph : list CanvasElement :=
  [ rect 0 0 10 10 (Some 1%Q) (Some "#374151") None None;
    line 2 5 4 8 1.5 "#1F2937";
    line 4 8 8 2 1.5 "#1F2937" ].

Definition glyph (checked : bool) : list CanvasElement :=
  if checked then checked_glyph else unchecked_glyph.

(** The flags of the two checklists in the order of their rows. *)
Definition full_flags (c : Full.Checkboxes) : list bool :=
  [ c.(Full.power_isolated); c.(Full.valves_locked); c.(Full.pump_drained);
    c.(Full.auxiliary_disconnected); c.(Full.coupling_guard_removed);
    c.(Full.coupling_disconnected); c.(Full.pump_cleaned);
    c.(Full.openings_protected); c.(Full.photos_taken);
    c.(Full.system_flush); c.(Full.safety_training); c.(Full.harmless_form);
    c.(Full.sds); c.(Full.alignment_report); c.(Full.operation_records) ].

Definition preServiceOnly_flags (c : PreServiceOnly.Checkboxes) : list bool :=
  [ c.(PreServiceOnly.system_flush); c.(PreServiceOnly.safety_training);
    c.(PreServiceOnly.harmless_form); c.(PreServiceOnly.sds);
    c.(PreServiceOnly.alignment_report); c.(PreServiceOnly.operation_records) ].

Definition is_fetch (e : Event) : bool :=
  match e with
  | Fetch _ => true
  | _ => false
  end.

Definition is_createPdf (e : Event) : bool :=
  match e with
  | CreatePdf => true
  | _ => false
  end.

(** The indices [0 .. n] of the horizontal rules of a table of [n] rows at
    which the layout draws a rule of positive width. *)
Definition drawn_rules (l : CustomTableLayout) (n : nat) : list nat :=
  filter (fun i => Qgtb (hLineWidth l (Z.of_nat i) (Z.of_nat n)) 0) (seq 0 (S n)).

(** What an outcome of the engine becomes at the caller of [generatePDF]. *)
Definition settle (o : Outcome Blob) : Outcome (option Blob) :=
  match o with
  | Resolved blob => Resolved (Some blob)
  | Rejected => Rejected
  | Pending => Pending
  end.

(** * The form component (the caller of the full variant) *)

(** A JavaScript object with string keys, as the list of its own
    properties in insertion order. *)
Module JSObject.

Definition t (V : Type) : Type := list (string * V).

(** [o[key]]; [None] is [undefined]. *)
Fixpoint get {V : Type} (o : t V) (key : string) : option V :=
  match o with
  | [] => None
  | (k, v) :: rest => if String.eqb k key then Some v else get rest key
  end.

(** [{ ...o, [key]: value }]: an own property keeps its place, a new one
    is added at the end. *)
Fixpoint set {V : Type} (o : t V) (key : string) (value : V) : t V :=
  match o with
  | [] => [(key, value)]
  | (k, v) :: rest =>
      if String.eqb k key then (k, value) :: rest
      else (k, v) :: set rest key value
  end.

Definition keys {V : Type} (o : t V) : list string := map fst o.

End JSObject.

Module PumpServiceChecklist.

(** [type CheckboxId] *)
Inductive CheckboxId :=
| system_flush | safety_training | harmless_form | sds | alignment_report
| operation_records | power_isolation | valves_locked | pump_drained
| aux_systems | coupling_guard | coupling | pump_cleaned | openings_protected
| photos_taken.

(** The string literal that a [CheckboxId] is. *)
Definition key (id : CheckboxId) : string :=
  match id with
  | system_flush => "system_flush"
  | safety_training => "safety_training"
  | harmless_form => "harmless_form"
  | sds => "sds"
  | alignment_report => "alignment_report"
  | operation_records => "operation_records"
  | power_isolation => "power_isolation"
  | valves_locked => "valves_locked"
  | pump_drained => "pump_drained"
  | aux_systems => "aux_systems"
  | coupling_guard => "coupling_guard"
  | coupling => "coupling"
  | pump_cleaned => "pump_cleaned"
  | openings_protected => "openings_protected"
  | photos_taken => "photos_taken"
  end.

(** The state hooks of the component. *)
Record State := mkState {
  language : Language;
  formData : JSObject.t string;
  checkboxes : JSObject.t bool;
  isPreviewOpen : bool;
  pdfPreviewUrl : option string
}.

(** The initial values given to [useState]. *)
Definition initialState : State :=
  {| language := En;
     formData :=
       [ ("company", ""); ("site_location", ""); ("contact_person", "");
         ("department", ""); ("phone", ""); ("email", ""); ("pump_model", "");
         ("serial_number", ""); ("manufacture_year", ""); ("operating_hours", "");
         ("last_service_date", ""); ("installation_date", ""); ("temperature", "");
         ("flow_rate", ""); ("suction_pressure", ""); ("discharge_pressure", "");
         ("total_head", ""); ("pumped_medium", ""); ("service_reason", "");
         ("training_hours", "") ];
     checkboxes :=
       [ ("system_flush", false); ("safety_training", false);
         ("harmless_form", false); ("sds", false); ("alignment_report", false);
         ("operation_records", false); ("power_isolation", false);
         ("valves_locked", false); ("pump_drained", false); ("aux_systems", false);
         ("coupling_guard", false); ("coupling", false); ("pump_cleaned", false);
         ("openings_protected", false); ("photos_taken", false) ];
     isPreviewOpen := false;
     pdfPreviewUrl := None |}.

(** Truthiness of [prev[id]]: [undefined] is falsy. *)
Definition flag (v : option bool) : bool :=
  match v with
  | Some b => b
  | None => false
  end.

(** [setFormData(prev => ({ ...prev, [name]: value }))] *)
Definition handleInputChange (name value : string) (s : State) : State :=
  {| language := s.(language);
     formData := JSObject.set s.(formData) name value;
     checkboxes := s.(checkboxes);
     isPreviewOpen := s.(isPreviewOpen);
     pdfPreviewUrl := s.(pdfPreviewUrl) |}.

(** [setCheckboxes(prev => ({ ...prev, [id]: !prev[id] }))] *)
Definition handleCheckboxChange (id : CheckboxId) (s : State) : State :=
  {| language := s.(language);
     formData := s.(formData);
     checkboxes :=
       JSObject.set s.(checkboxes) (key id)
         (negb (flag (JSObject.get s.(checkboxes) (key id))));
     isPreviewOpen := s.(isPreviewOpen);
     pdfPreviewUrl := s.(pdfPreviewUrl) |}.

(** [setLanguage(lang)] *)
Definition changeLanguage (lang : Language) (s : State) : State :=
  {| language := lang;
     formData := s.(formData);
     checkboxes := s.(checkboxes);
     isPreviewOpen := s.(isPreviewOpen);
     pdfPreviewUrl := s.(pdfPreviewUrl) |}.

(** What [generatePDF] reads from the object it is given as [formData]: a
    property that is missing reads as [undefined]; every use of the
    nineteen string fields is [field || '-'], for which [undefined] and
    the empty string agree. *)
Definition read (o : JSObject.t string) (name : string) : string :=
  match JSObject.get o name with
  | Some v => v
  | None => ""
  end.

Definition asFormData (o : JSObject.t string) : FormData :=
  {| company := read o "company";
     site_location := read o "site_location";
     contact_person := read o "contact_person";
     department := read o "department";
     phone := read o "phone";
     email := read o "email";
     pump_model := read o "pump_model";
     serial_number := read o "serial_number";
     manufacture_year := read o "manufacture_year";
     operating_hours := read o "operating_hours";
     last_service_date := read o "last_service_date";
     installation_date := read o "installation_date";
     temperature := read o "temperature";
     flow_rate := read o "flow_rate";
     suction_pressure := read o "suction_pressure";
     discharge_pressure := read o "discharge_pressure";
     total_head := read o "total_head";
     pumped_medium := read o "pumped_medium";
     service_reason := read o "service_reason";
     training_hours := JSObject.get o "training_hours" |}.

(** What [generatePDF] reads from the object it is given as [checkboxes]:
    the fifteen properties of its [Checkboxes] interface, each used as a
    condition only. *)
Definition asCheckboxes (o : JSObject.t bool) : Full.Checkboxes :=
  {| Full.system_flush := flag (JSObject.get o "system_flush");
     Full.safety_training := flag (JSObject.get o "safety_training");
     Full.harmless_form := flag (JSObject.get o "harmless_form");
     Full.sds := flag (JSObject.get o "sds");
     Full.alignment_report := flag (JSObject.get o "alignment_report");
     Full.operation_records := flag (JSObject.get o "operation_records");
     Full.power_isolated := flag (JSObject.get o "power_isolated");
     Full.valves_locked := flag (JSObject.get o "valves_locked");
     Full.pump_drained := flag (JSObject.get o "pump_drained");
     Full.auxiliary_disconnected := flag (JSObject.get o "auxiliary_disconnected");
     Full.coupling_guard_removed := flag (JSObject.get o "coupling_guard_removed");
     Full.coupling_disconnected := flag (JSObject.get o "coupling_disconnected");
     Full.pump_cleaned := flag (JSObject.get o "pump_cleaned");
     Full.openings_protected := flag (JSObject.get o "openings_protected");
     Full.photos_taken := flag (JSObject.get o "photos_taken") |}.

(** The effects of the handlers: those of [generatePDF] and the calls the
    component makes itself. *)
Inductive Effect :=
| Engine (e : Event)
| CreateObjectURL (blob : Blob)
| RevokeObjectURL (url : string)
| ConsoleError
| Alert (message : string)
| Download (href filename : string).

(** [handleSubmit]; [createObjectURL] is [URL.createObjectURL]. *)
Definition handleSubmit (browser : Browser) (createObjectURL : Blob -> string)
    (s : State) : list Effect * Outcome State :=
  let call :=
    Full.generatePDF browser (asFormData s.(formData)) (asCheckboxes s.(checkboxes))
      s.(language) in
  match outcome call with
  | Resolved (Some pdfBlob) =>
      ((map Engine (events call) ++ [CreateObjectURL pdfBlob])%list,
       Resolved {| language := s.(language);
                   formData := s.(formData);
                   checkboxes := s.(checkboxes);
                   isPreviewOpen := true;
                   pdfPreviewUrl := Some (createObjectURL pdfBlob) |})
  | Resolved None => (map Engine (events call), Resolved s)
  | Rejected =>
      ((map Engine (events call)
          ++ [ ConsoleError;
               Alert (ifEn s.(language) "Error generating PDF. Please try again."
                        "เกิดข้อผิดพลาดในการสร้าง PDF กรุณาลองอีกครั้ง") ])%list,
       Resolved s)
  | Pending => (map Engine (events call), Pending)
  end.

(** [handleDownload] *)
Definition handleDownload (s : State) : list Effect :=
  match s.(pdfPreviewUrl) with
  | Some url => if truthy url then [Download url "pump-service-checklist.pdf"] else []
  | None => []
  end.

(** [handleClosePreview] *)
Definition handleClosePreview (s : State) : list Effect * State :=
  match s.(pdfPreviewUrl) with
  | Some url =>
      if truthy url then
        ([RevokeObjectURL url],
         {| language := s.(language);
            formData := s.(formData);
            checkboxes := s.(checkboxes);
            isPreviewOpen := false;
            pdfPreviewUrl := None |})
      else
        ([],
         {| language := s.(language);
            formData := s.(formData);
            checkboxes := s.(checkboxes);
            isPreviewOpen := false;
            pdfPreviewUrl := s.(pdfPreviewUrl) |})
  | None =>
      ([],
       {| language := s.(language);
          formData := s.(formData);
          checkboxes := s.(checkboxes);
          isPreviewOpen := false;
          pdfPreviewUrl := None |})
  end.

(** The states the handlers can lead to from the initial one. *)
Inductive Reachable : State -> Prop :=
| reach_initial : Reachable initialState
| reach_input s name value :
    Reachable s -> Reachable (handleInputChange name value s)
| reach_checkbox s id :
    Reachable s -> Reachable (handleCheckboxChange id s)
| reach_language s lang :
    Reachable s -> Reachable (changeLanguage lang s)
| reach_submit s browser createObjectURL s' :
    Reachable s ->
    snd (handleSubmit browser createObjectURL s) = Resolved s' ->
    Reachable s'
| reach_close s :
    Reachable s -> Reachable (snd (handleClosePreview s)).

(** The flag the form shows for a check box. *)
Definition shown (s : State) (id : CheckboxId) : bool :=
  flag (JSObject.get s.(checkboxes) (key id)).

(** The names of the inputs that feed the three tables, in table order. *)
Definition tableInputs : list string :=
  [ "company"; "site_location"; "contact_person"; "department"; "phone"; "email";
    "pump_model"; "serial_number"; "manufacture_year"; "operating_hours";
    "last_service_date"; "installation_date";
    "temperature"; "flow_rate"; "suction_pressure"; "discharge_pressure";
    "total_head"; "pumped_medium" ].

(** The document the engine receives when the form is submitted. *)
Definition submitted (s : State) (logoBase64 qrBase64 today : string) : DocDefinition :=
  Full.producedDocument (asFormData s.(formData)) (asCheckboxes s.(checkboxes))
    s.(language) logoBase64 qrBase64 today.

End PumpServiceChecklist.

(** The image payloads of the tree, in reading order. *)
Fixpoint images_of (c : Content) : list string :=
  match c with
  | Image image _ => [image]
  | Columns cs _ => flat_map images_of cs
  | Stack cs _ => flat_map images_of cs
  | Table _ _ _ body => flat_map (flat_map images_of) body
  | _ => []
  end.

Definition doc_images (d : DocDefinition) : list string :=
  flat_map images_of (content d).

(** * The arithmetic of [img.onload] in two number systems *)

(** The operations that the body of [img.onload] uses on numbers. *)
Record Arithmetic (N : Type) := mkArithmetic {
  eight_hundred : N;
  greater : N -> N -> bool;
  divide : N -> N -> N;
  times : N -> N -> N
}.
Arguments eight_hundred {N}.
Arguments greater {N}.
Arguments divide {N}.
Arguments times {N}.

(** JavaScript numbers as they are: IEEE 754 binary64, [a > b] false as
    soon as one side is NaN. *)
Definition doubles : Arithmetic float :=
  {| eight_hundred := 800%float;
     greater := fun a b => PrimFloat.ltb b a;
     divide := PrimFloat.div;
     times := PrimFloat.mul |}.

(** The same operations without rounding. *)
Definition rationals : Arithmetic Q :=
  {| eight_hundred := 800%Q;
     greater := Qgtb;
     divide := Qdiv;
     times := Qmult |}.

(** The body of [img.onload] from [let width = img.width] to the values
    given to the canvas, over a number system. *)
Definition onloadSize {N : Type} (A : Arithmetic N) (img_width img_height : N) : N * N :=
  let width := img_width in
  let height := img_height in
  let aspectRatio := divide A width height in
  let wh :=
    if greater A width (eight_hundred A) then
      let width := eight_hundred A in
      let height := divide A width aspectRatio in
      (width, height)
    else (width, height) in
  let width := fst wh in
  let height := snd wh in
  if greater A height (eight_hundred A) then
    let height := eight_hundred A in
    let width := times A height aspectRatio in
    (width, height)
  else (width, height).

(** What the program computes. *)
Definition targetSizeDouble (img_width img_height : float) : float * float :=
  onloadSize doubles img_width img_height.

(** The two-stage scaling of the specification over a number system. *)
Definition twoStage {N : Type} (A : Arithmetic N) (W H : N) : N * N :=
  let scale := divide A (eight_hundred A) W in
  let stage1 :=
    if greater A W (eight_hundred A) then (times A W scale, times A H scale)
    else (W, H) in
  let W1 := fst stage1 in
  let H1 := snd stage1 in
  if greater A H1 (eight_hundred A) then
    (times A W1 (divide A (eight_hundred A) H1),
     times A H1 (divide A (eight_hundred A) H1))
  else (W1, H1).

(** An image dimension (an unsigned integer) as a JavaScript number. *)
Definition dimension (n : Z) : float := PrimFloat.of_uint63 (Uint63.of_Z n).

(** Two doubles that agree up to a relative error of 2^-50. *)
Definition close (a b : float) : bool :=
  PrimFloat.leb (PrimFloat.abs (PrimFloat.sub a b))
                (PrimFloat.mul (PrimFloat.abs b) 0x1p-50%float).


Definition sizes (first count : nat) : list Z := map Z.of_nat (seq first count).


(** The declared column widths of a table, its header rows, and the number
    of cells of each of its rows. *)
Definition table_shape (c : Content) : option (list string * Z * list nat) :=
  match c with
  | Table _ widths headerRows body => Some (widths, headerRows, map (@length Content) body)
  | _ => None
  end.

Definition is_alert (e : PumpServiceChecklist.Effect) : bool :=
  match e with
  | PumpServiceChecklist.Alert _ => true
  | _ => false
  end.

(** [s.split(sep)] for a separator of one character: the pieces between
    the separators, in order; the empty string gives one empty piece. *)
Fixpoint js_split (sep : ascii) (s : string) : list string :=
  match s with
  | EmptyString => [EmptyString]
  | String c rest =>
      if Ascii.eqb c sep then EmptyString :: js_split sep rest
      else match js_split sep rest with
           | [] => [String c EmptyString]
           | piece :: pieces => String c piece :: pieces
           end
  end.

(** [pieces.join(sep)] *)
Fixpoint js_join (sep : string) (pieces : list string) : string :=
  match pieces with
  | [] => EmptyString
  | piece :: rest =>
      match rest with
      | [] => piece
      | _ :: _ => piece ++ sep ++ js_join sep rest
      end
  end.

(** What holds of the program in doubles for a decoded size [W] x [H]:
    the computed size has the width-to-height ratio of the image up to
    rounding, and neither side of it is greater than 800. *)
Definition ratio_check (W H : Z) : bool :=
  let w := dimension W in
  let h := dimension H in
  let result := targetSizeDouble w h in
  close (PrimFloat.div (fst result) (snd result)) (PrimFloat.div w h)
  && PrimFloat.leb (fst result) 800 && PrimFloat.leb (snd result) 800.

Definition ratio_check_all (widths heights : list Z) : bool :=
  forallb (fun W => forallb (fun H => ratio_check W H) heights) widths.

(** * Proofs *)

Lemma js_or_dash (field : string) : field ||| "-" = placeholder field.
Proof. destruct field; reflexivity. Qed.

Lemma placeholder_nonempty (field : string) :
  field <> "" -> placeholder field = field.
Proof. destruct field; [congruence | reflexivity]. Qed.

Lemma placeholder_empty : placeholder "" = "-".
Proof. reflexivity. Qed.

Lemma texts_applyTableLayout (item : Content) :
  texts (applyTableLayout item) = texts item.
Proof. destruct item; reflexivity. Qed.

Lemma doc_texts_applyTableLayouts (d : DocDefinition) :
  doc_texts (applyTableLayouts d) = doc_texts d.
Proof.
  unfold doc_texts, applyTableLayouts; cbn [content].
  induction (content d) as [| item rest IH]; [reflexivity |].
  cbn [map flat_map]. now rewrite texts_applyTableLayout, IH.
Qed.

Lemma full_texts formData checkboxes language logoBase64 qrBase64 localeDate :
  doc_texts (Full.producedDocument formData checkboxes language logoBase64 qrBase64 localeDate)
  = map (render language) (full_sites formData localeDate).
Proof.
  unfold Full.producedDocument. rewrite doc_texts_applyTableLayouts.
  unfold doc_texts, full_sites. rewrite map_app.
  destruct language; cbn -[js_or placeholder Full.safetyTrainingLabel split_join_slash_dot];
    rewrite ?js_or_dash; reflexivity.
Qed.

Lemma preServiceOnly_texts formData checkboxes language logoBase64 qrBase64 :
  doc_texts (PreServiceOnly.producedDocument formData checkboxes language logoBase64 qrBase64)
  = map (render language) (preServiceOnly_sites formData).
Proof.
  unfold PreServiceOnly.producedDocument. rewrite doc_texts_applyTableLayouts.
  unfold doc_texts, preServiceOnly_sites. rewrite map_app.
  destruct language; cbn -[js_or placeholder PreServiceOnly.safetyTrainingLabel];
    rewrite ?js_or_dash; reflexivity.
Qed.

Lemma full_sites_switch formData localeDate :
  Forall switches (full_sites formData localeDate).
Proof. unfold full_sites. cbn [map app Full.importantNotes]. solve_switches. Qed.

Lemma preServiceOnly_sites_switch formData :
  Forall switches (preServiceOnly_sites formData).
Proof. unfold preServiceOnly_sites. cbn [map app PreServiceOnly.importantNotes]. solve_switches. Qed.

(** When the texts of a document are the rendering of a list of sites that
    all switch, the two languages disagree at every bilingual position. *)
Lemma bilingual_position (sites : list Site) (shown : Language -> list string) :
  (forall language, shown language = map (render language) sites) ->
  Forall switches sites ->
  forall n p language,
    nth_error sites n = Some (Bi p) ->
    nth_error (shown language) n = Some p.[language]
    /\ nth_error (shown (other language)) n = Some p.[other language]
    /\ p.[language] <> p.[other language].
Proof.
  intros Hshown Hsw n p language Hn.
  rewrite !Hshown, !nth_error_map, Hn. cbn.
  repeat split.
  rewrite Forall_forall in Hsw.
  exact (Hsw (Bi p) (nth_error_In _ _ Hn) language).
Qed.

(** C1. In both variants, for every form, every checklist and both
    languages, the texts of the produced tree are, in reading order, the
    rendering of one list of sites that does not depend on the language:
    each built-in text (header and address lines, title, section headers,
    table labels, checklist labels, notes) is the member of its bilingual
    pair keyed by the active language, the members of every pair differ,
    so the other language shows a different string at each such position;
    the remaining positions are the value cells filled from the form. *)
Theorem C1_language_selection :
  forall formData checkboxes15 checkboxes6 language logoBase64 qrBase64 localeDate,
    let full l :=
      doc_texts (Full.producedDocument formData checkboxes15 l logoBase64 qrBase64 localeDate) in
    let pre l :=
      doc_texts (PreServiceOnly.producedDocument formData checkboxes6 l logoBase64 qrBase64) in
    (full language = map (render language) (full_sites formData localeDate)
     /\ Forall switches (full_sites formData localeDate)
     /\ forall n p, nth_error (full_sites formData localeDate) n = Some (Bi p) ->
          nth_error (full language) n = Some p.[language]
          /\ nth_error (full (other language)) n = Some p.[other language]
          /\ p.[language] <> p.[other language])
    /\
    (pre language = map (render language) (preServiceOnly_sites formData)
     /\ Forall switches (preServiceOnly_sites formData)
     /\ forall n p, nth_error (preServiceOnly_sites formData) n = Some (Bi p) ->
          nth_error (pre language) n = Some p.[language]
          /\ nth_error (pre (other language)) n = Some p.[other language]
          /\ p.[language] <> p.[other language]).
Proof.
  intros formData cb15 cb6 language logo qr localeDate full pre.
  split; (split; [| split]).
  - apply full_texts.
  - apply full_sites_switch.
  - intros n p. apply (bilingual_position _ full).
    + intros l. apply full_texts.
    + apply full_sites_switch.
  - apply preServiceOnly_texts.
  - apply preServiceOnly_sites_switch.
  - intros n p. apply (bilingual_position _ pre).
    + intros l. apply preServiceOnly_texts.
    + apply preServiceOnly_sites_switch.
Qed.

Lemma C1_language_selection_witness :
  nth_error (full_sites acmeForm "02/11/2026") 9 = Some (Bi Full.translations.company)
  /\ nth_error
       (doc_texts (Full.producedDocument acmeForm allFalse15 Th "" "" "02/11/2026")) 9
     = Some "บริษท:"
  /\ nth_error
       (doc_texts (Full.producedDocument acmeForm allFalse15 En "" "" "02/11/2026")) 9
     = Some "Company:".
Proof.
  split; [reflexivity |].
  destruct (C1_language_selection acmeForm allFalse15 allFalse6 Th "" "" "02/11/2026")
    as [[_ [_ H]] _].
  destruct (H 9%nat Full.translations.company eq_refl) as [Hth [Hen _]].
  split; [exact Hth | exact Hen].
Defined.

(** ** Value cells and the placeholder dash *)

Lemma full_value_cells formData checkboxes language logoBase64 qrBase64 localeDate :
  let d := Full.producedDocument formData checkboxes language logoBase64 qrBase64 localeDate in
  value_cells d = map placeholder (table_fields formData)
  /\ doc_paragraphs d = [placeholder formData.(service_reason)].
Proof.
  cbn -[js_or placeholder index]. rewrite ?js_or_dash. split; reflexivity.
Qed.

Lemma preServiceOnly_value_cells formData checkboxes language logoBase64 qrBase64 :
  let d := PreServiceOnly.producedDocument formData checkboxes language logoBase64 qrBase64 in
  value_cells d = map placeholder (table_fields formData)
  /\ doc_paragraphs d = [placeholder formData.(service_reason)].
Proof.
  cbn -[js_or placeholder index ifEn]. rewrite ?js_or_dash. split; reflexivity.
Qed.

(** Once both images are loaded and the engine hands out a blob, the call
    resolves with that blob, whatever the form contains. *)
Lemma full_generatePDF_resolves browser formData checkboxes language logo qr blob :
  browser.(window_defined) = true ->
  outcome (loadImage browser.(images) "/Logo.png") = Resolved logo ->
  outcome (loadImage browser.(images) "/QR.jpeg") = Resolved qr ->
  browser.(getBlob)
    (Full.producedDocument formData checkboxes language logo qr browser.(localeDate))
    = Resolved blob ->
  outcome (Full.generatePDF browser formData checkboxes language) = Resolved (Some blob).
Proof.
  intros Hw Hl Hq Hb. unfold Full.generatePDF. rewrite Hw. cbn [negb].
  destruct (loadImage browser.(images) "/Logo.png") as [t1 o1].
  destruct (loadImage browser.(images) "/QR.jpeg") as [t2 o2].
  cbn in Hl, Hq. subst o1 o2.
  unfold Promise_all, createPdf_getBlob, emit, resolve, await, outcome. cbn.
  rewrite Hb. reflexivity.
Qed.

Lemma preServiceOnly_generatePDF_resolves browser formData checkboxes language logo qr blob :
  browser.(window_defined) = true ->
  outcome (loadImage browser.(images) "/Logo.png") = Resolved logo ->
  outcome (loadImage browser.(images) "/QR.jpeg") = Resolved qr ->
  browser.(getBlob)
    (PreServiceOnly.producedDocument formData checkboxes language logo qr)
    = Resolved blob ->
  outcome (PreServiceOnly.generatePDF browser formData checkboxes language)
    = Resolved (Some blob).
Proof.
  intros Hw Hl Hq Hb. unfold PreServiceOnly.generatePDF. rewrite Hw. cbn [negb].
  destruct (loadImage browser.(images) "/Logo.png") as [t1 o1].
  destruct (loadImage browser.(images) "/QR.jpeg") as [t2 o2].
  cbn in Hl, Hq. subst o1 o2.
  unfold Promise_all, createPdf_getBlob, emit, resolve, await, outcome. cbn.
  rewrite Hb. reflexivity.
Qed.

(** C2. In both variants every key/value field and the service-reason
    paragraph is shown verbatim when it is not empty and as a dash when it
    is empty; on the all-empty form every value cell is the dash and the
    call still resolves with the engine's blob; for the form with company
    Acme Co in the primary language the first table starts with the rows
    Company: / Acme Co and Site Location: / -, and the checklist shows one
    unchecked square per item (15 in the full variant, 6 in the other). *)
Theorem C2_placeholder_dash :
  forall formData checkboxes15 checkboxes6 language logoBase64 qrBase64 today,
    let full f := Full.producedDocument f checkboxes15 language logoBase64 qrBase64 today in
    let pre f := PreServiceOnly.producedDocument f checkboxes6 language logoBase64 qrBase64 in
    (* verbatim or dash *)
    (value_cells (full formData) = map placeholder (table_fields formData)
     /\ doc_paragraphs (full formData) = [placeholder formData.(service_reason)]
     /\ value_cells (pre formData) = map placeholder (table_fields formData)
     /\ doc_paragraphs (pre formData) = [placeholder formData.(service_reason)]
     /\ (forall field, field <> "" -> placeholder field = field)
     /\ placeholder "" = "-")
    (* the all-empty form *)
    /\ (value_cells (full emptyForm) = repeat "-" 18
        /\ doc_paragraphs (full emptyForm) = ["-"]
        /\ value_cells (pre emptyForm) = repeat "-" 18
        /\ doc_paragraphs (pre emptyForm) = ["-"])
    /\ (forall browser logo qr blob,
          browser.(window_defined) = true ->
          outcome (loadImage browser.(images) "/Logo.png") = Resolved logo ->
          outcome (loadImage browser.(images) "/QR.jpeg") = Resolved qr ->
          (browser.(getBlob)
             (Full.producedDocument emptyForm checkboxes15 language logo qr
                browser.(localeDate)) = Resolved blob ->
           outcome (Full.generatePDF browser emptyForm checkboxes15 language)
             = Resolved (Some blob))
          /\
          (browser.(getBlob)
             (PreServiceOnly.producedDocument emptyForm checkboxes6 language logo qr)
             = Resolved blob ->
           outcome (PreServiceOnly.generatePDF browser emptyForm checkboxes6 language)
             = Resolved (Some blob)))
    (* company Acme Co, everything else empty, nothing checked, English *)
    /\ (let d := Full.producedDocument acmeForm allFalse15 En logoBase64 qrBase64 today in
        firstn 2 (first_table_rows d)
          = [["Company:"; "Acme Co"]; ["Site Location:"; "-"]]
        /\ map fst (doc_checkbox_rows d) = repeat unchecked_glyph 15)
    /\ (let d := PreServiceOnly.producedDocument acmeForm allFalse6 En logoBase64 qrBase64 in
        firstn 2 (first_table_rows d)
          = [["Company:"; "Acme Co"]; ["Site Location:"; "-"]]
        /\ map fst (doc_checkbox_rows d) = repeat unchecked_glyph 6).
Proof.
  intros formData cb15 cb6 language logo0 qr0 today full pre.
  destruct (full_value_cells formData cb15 language logo0 qr0 today) as [F1 F2].
  destruct (preServiceOnly_value_cells formData cb6 language logo0 qr0) as [P1 P2].
  destruct (full_value_cells emptyForm cb15 language logo0 qr0 today) as [E1 E2].
  destruct (preServiceOnly_value_cells emptyForm cb6 language logo0 qr0) as [E3 E4].
  cbv zeta.
  repeat match goal with |- _ /\ _ => split end;
    try assumption; try reflexivity.
  - apply placeholder_nonempty.
  - intros browser logo qr blob Hw Hl Hq. split; intros Hb.
    + eapply full_generatePDF_resolves; eassumption.
    + eapply preServiceOnly_generatePDF_resolves; eassumption.
Qed.

Lemma C2_placeholder_dash_witness :
  let browser := sampleBrowser true (sampleImages smallBlob None true) in
  outcome (Full.generatePDF browser emptyForm allFalse15 En) = Resolved (Some pdfBlob)
  /\ outcome (PreServiceOnly.generatePDF browser emptyForm allFalse6 En)
     = Resolved (Some pdfBlob).
Proof.
  intros browser.
  destruct (C2_placeholder_dash emptyForm allFalse15 allFalse6 En "" "" "")
    as (_ & _ & H & _).
  destruct (H browser "data:image/png;base64,iVBORw==" "data:image/png;base64,iVBORw=="
              pdfBlob eq_refl eq_refl eq_refl) as [HF HP].
  split; [apply HF | apply HP]; reflexivity.
Defined.

(** ** The image normalizer *)

Section Scaling.
Local Open Scope Q_scope.

Lemma Qgtb_true a b : Qgtb a b = true <-> b < a.
Proof.
  unfold Qgtb. rewrite negb_true_iff. split.
  - intros H. apply Qnot_le_lt. intros Hle. apply Qle_bool_iff in Hle. congruence.
  - intros H. destruct (Qle_bool a b) eqn:E; [| reflexivity].
    apply Qle_bool_iff in E. apply Qlt_not_le in H. contradiction.
Qed.

Lemma Qgtb_false a b : Qgtb a b = false <-> a <= b.
Proof. unfold Qgtb. rewrite negb_false_iff. apply Qle_bool_iff. Qed.







End Scaling.

Section LoadImage.
Variables (env : ImageEnv) (url : string) (blob : Blob).
Hypothesis fetched : fetch env url = Some blob.

Lemma size_test_large : (maxImageSize < size blob)%Z -> (size blob >? maxImageSize)%Z = true.
Proof. intros H. rewrite Z.gtb_ltb. now apply Z.ltb_lt. Qed.

Lemma size_test_small : (size blob <= maxImageSize)%Z -> (size blob >? maxImageSize)%Z = false.
Proof. intros H. rewrite Z.gtb_ltb. apply Z.ltb_ge. exact H. Qed.

Lemma loadImage_small :
  (size blob <= maxImageSize)%Z ->
  loadImage env url
  = ([Fetch url; ReadAsDataURL blob], Resolved (readAsDataURL env blob)).
Proof.
  intros H. unfold loadImage. rewrite fetched, (size_test_small H). reflexivity.
Qed.

Lemma loadImage_resized (w h : Z) :
  (maxImageSize < size blob)%Z ->
  decode env blob = Some (w, h) ->
  getContext2d env = true ->
  loadImage env url
  = ([ Fetch url; ImageSrc blob;
       DrawImage (fst (targetSize w h)) (snd (targetSize w h));
       ToDataURL "image/jpeg" 0.7 ],
     Resolved (toDataURL env blob (fst (targetSize w h)) (snd (targetSize w h))
                 "image/jpeg" 0.7%Q)).
Proof.
  intros H Hd Hc. unfold loadImage.
  rewrite fetched, (size_test_large H), Hd, Hc. reflexivity.
Qed.

Lemma loadImage_no_context (w h : Z) :
  (maxImageSize < size blob)%Z ->
  decode env blob = Some (w, h) ->
  getContext2d env = false ->
  loadImage env url = ([Fetch url; ImageSrc blob], Resolved "").
Proof.
  intros H Hd Hc. unfold loadImage.
  rewrite fetched, (size_test_large H), Hd, Hc. reflexivity.
Qed.

Lemma loadImage_undecodable :
  (maxImageSize < size blob)%Z ->
  decode env blob = None ->
  loadImage env url = ([Fetch url; ImageSrc blob], Pending).
Proof.
  intros H Hd. unfold loadImage.
  rewrite fetched, (size_test_large H), Hd. reflexivity.
Qed.

Lemma loadImage_resize_only_large :
  existsb resize_event (events (loadImage env url)) = true ->
  (maxImageSize < size blob)%Z.
Proof.
  intros H. destruct (Z.lt_ge_cases maxImageSize (size blob)) as [Hlt | Hge];
    [exact Hlt |].
  rewrite (loadImage_small Hge) in H. discriminate H.
Qed.

End LoadImage.


(** The rational model of the size is the text of [img.onload] read in
    exact arithmetic, and likewise for the two-stage scaling. *)
Lemma targetSize_exact (W H : Z) :
  targetSize W H = onloadSize rationals (inject_Z W) (inject_Z H).
Proof. reflexivity. Qed.

Lemma twoStageScaling_exact (W H : Q) :
  twoStageScaling W H = twoStage rationals W H.
Proof. reflexivity. Qed.



Lemma in_sizes (n : Z) (first count : nat) :
  (Z.of_nat first <= n < Z.of_nat first + Z.of_nat count)%Z -> In n (sizes first count).
Proof.
  intros Hn. unfold sizes. rewrite <- (Z2Nat.id n) by lia.
  apply in_map, in_seq. lia.
Qed.






Lemma size_largeBlob : size largeBlob = (500 * 1024 + 1)%Z.
Proof.
  unfold size, largeBlob. cbn [bytes].
  rewrite repeat_length. apply Z2Nat.id. discriminate.
Qed.

Lemma largeBlob_large : (500 * 1024 < size largeBlob)%Z.
Proof. rewrite size_largeBlob. reflexivity. Qed.


(** C4. A fetched image of at most 500 * 1024 bytes is read as a data URL
    as it is: the only effects are the fetch and the read of the
    unmodified blob, and the result is that data URL.  An effect of the
    decode, draw and re-encode path occurs only when the size is strictly
    above the threshold, and then the re-encoding is JPEG at quality 0.7. *)
Theorem C4_small_images_untouched :
  forall (env : ImageEnv) (url : string) (blob : Blob),
    fetch env url = Some blob ->
    ((size blob <= 500 * 1024)%Z ->
       loadImage env url
       = ([Fetch url; ReadAsDataURL blob], Resolved (readAsDataURL env blob)))
    /\ (existsb resize_event (events (loadImage env url)) = true ->
        (500 * 1024 < size blob)%Z)
    /\ (forall w h,
          (500 * 1024 < size blob)%Z ->
          decode env blob = Some (w, h) ->
          getContext2d env = true ->
          let width := fst (targetSize w h) in
          let height := snd (targetSize w h) in
          loadImage env url
          = ([ Fetch url; ImageSrc blob; DrawImage width height;
               ToDataURL "image/jpeg" 0.7 ],
             Resolved (toDataURL env blob width height "image/jpeg" 0.7%Q))).
Proof.
  intros env url blob Hf. split; [| split].
  - apply loadImage_small; assumption.
  - apply loadImage_resize_only_large; assumption.
  - intros w h Hs Hd Hc. apply loadImage_resized; assumption.
Qed.

Lemma C4_small_images_untouched_witness :
  loadImage (sampleImages smallBlob None true) "/QR.jpeg"
  = ([Fetch "/QR.jpeg"; ReadAsDataURL smallBlob],
     Resolved "data:image/png;base64,iVBORw==").
Proof.
  destruct (C4_small_images_untouched (sampleImages smallBlob None true)
              "/QR.jpeg" smallBlob eq_refl) as [H _].
  apply H. vm_compute. discriminate.
Defined.

Lemma loadImage_never_renders (env : ImageEnv) (url : string) :
  ~ In CreatePdf (events (loadImage env url)).
Proof.
  unfold loadImage, events.
  destruct (fetch env url) as [b |]; [| cbn; intuition congruence].
  destruct (size b >? maxImageSize)%Z; [| cbn; intuition congruence].
  destruct (decode env b) as [[w h] |]; [| cbn; intuition congruence].
  destruct (getContext2d env); cbn; intuition congruence.
Qed.

(** C5. For an image above the threshold: without a 2D context
    [loadImage] resolves with the empty string; when the bytes do not
    decode, [onload] never fires and nothing else settles the promise, so
    [loadImage] stays pending, and so does the whole [generatePDF] call
    unless the other image's fetch rejects. *)
Theorem C5_decode_failure_never_settles :
  forall (browser : Browser) (blob : Blob) formData checkboxes15 checkboxes6 language,
    browser.(window_defined) = true ->
    fetch browser.(images) "/Logo.png" = Some blob ->
    (500 * 1024 < size blob)%Z ->
    (forall w h,
       decode browser.(images) blob = Some (w, h) ->
       getContext2d browser.(images) = false ->
       loadImage browser.(images) "/Logo.png"
       = ([Fetch "/Logo.png"; ImageSrc blob], Resolved ""))
    /\ (decode browser.(images) blob = None ->
        outcome (loadImage browser.(images) "/Logo.png") = Pending
        /\ (outcome (loadImage browser.(images) "/QR.jpeg") <> Rejected ->
            outcome (Full.generatePDF browser formData checkboxes15 language) = Pending
            /\ outcome (PreServiceOnly.generatePDF browser formData checkboxes6 language)
               = Pending
            /\ ~ In CreatePdf (events (Full.generatePDF browser formData checkboxes15 language))
            /\ ~ In CreatePdf
                 (events (PreServiceOnly.generatePDF browser formData checkboxes6 language)))).
Proof.
  intros browser blob formData cb15 cb6 language Hw Hf Hs. split.
  - intros w h Hd Hc. eapply loadImage_no_context; eassumption.
  - intros Hd.
    pose proof (loadImage_undecodable _ _ _ Hf Hs Hd) as Hlogo.
    split; [rewrite Hlogo; reflexivity |].
    intros Hqr.
    pose proof (loadImage_never_renders browser.(images) "/QR.jpeg") as Hnone.
    unfold Full.generatePDF, PreServiceOnly.generatePDF.
    rewrite Hw, Hlogo. cbn [negb].
    destruct (loadImage browser.(images) "/QR.jpeg") as [t2 o2].
    cbn in Hqr, Hnone.
    destruct o2 as [qr | |]; [| congruence |];
      cbn; (repeat split; try reflexivity); intuition congruence.
Qed.

Lemma C5_decode_failure_never_settles_witness :
  let browser := sampleBrowser true (sampleImages largeBlob None true) in
  outcome (loadImage browser.(images) "/Logo.png") = Pending
  /\ outcome (Full.generatePDF browser emptyForm allFalse15 En) = Pending
  /\ outcome (PreServiceOnly.generatePDF browser emptyForm allFalse6 En) = Pending.
Proof.
  intros browser.
  destruct (C5_decode_failure_never_settles browser largeBlob emptyForm
              allFalse15 allFalse6 En eq_refl eq_refl largeBlob_large)
    as [_ H].
  destruct (H eq_refl) as [Hlogo Hgen].
  destruct Hgen as (HF & HP & _).
  - unfold loadImage, browser; cbn [images sampleBrowser sampleImages fetch decode].
    rewrite (size_test_large largeBlob largeBlob_large). discriminate.
  - auto.
Defined.

(** C10. Without a global window [generatePDF] resolves with null at
    once: no asset is fetched, no font is registered, the engine is not
    called; null is a third result next to a blob and a rejection. *)
Theorem C10_no_window_resolves_null :
  forall (browser : Browser) formData checkboxes15 checkboxes6 language,
    browser.(window_defined) = false ->
    Full.generatePDF browser formData checkboxes15 language = ([], Resolved None)
    /\ PreServiceOnly.generatePDF browser formData checkboxes6 language
       = ([], Resolved None).
Proof.
  intros browser formData cb15 cb6 language Hw.
  unfold Full.generatePDF, PreServiceOnly.generatePDF. rewrite Hw.
  split; reflexivity.
Qed.

Lemma C10_no_window_resolves_null_witness :
  let server := sampleBrowser false (sampleImages smallBlob None true) in
  Full.generatePDF server acmeForm allFalse15 Th = ([], Resolved None)
  /\ PreServiceOnly.generatePDF server acmeForm allFalse6 Th = ([], Resolved None).
Proof.
  intros server.
  exact (C10_no_window_resolves_null server acmeForm allFalse15 allFalse6 Th eq_refl).
Defined.

(** ** Fonts *)

(** C6. No block and no named style of either variant sets a font family,
    so the family of [defaultStyle] is the one of the whole document.  The
    pre-service-only variant selects it by language, Roboto for English
    and THSarabunNew for Thai; the full variant registers Roboto alone and
    names Roboto for both languages, Thai included. *)
Theorem C6_font_family :
  forall formData checkboxes15 checkboxes6 language logoBase64 qrBase64 today,
    let full := Full.producedDocument formData checkboxes15 language logoBase64 qrBase64 today in
    let pre := PreServiceOnly.producedDocument formData checkboxes6 language logoBase64 qrBase64 in
    no_font_override full
    /\ no_font_override pre
    /\ document_font pre
       = Some (match language with En => "Roboto" | Th => "THSarabunNew" end)
    /\ document_font full = Some "Roboto"
    /\ document_font
         (Full.producedDocument formData checkboxes15 Th logoBase64 qrBase64 today)
       = document_font
           (Full.producedDocument formData checkboxes15 En logoBase64 qrBase64 today).
Proof.
  intros formData cb15 cb6 language logo qr today full pre.
  split; [subst full; solve_no_font |].
  split; [subst pre; solve_no_font |].
  split; [destruct language; reflexivity |].
  split; reflexivity.
Qed.

(** ** The safety-training label *)

(** C7. The label of the safety-training item, the second row of the
    pre-service checklist, ends with the training hours in parentheses
    followed by the unit word of the language exactly when the hours are a
    non-empty string: then it is a parenthesis-free question followed by
    (HOURS hours) or (HOURS ชั่วโมง); when the hours are empty or absent no
    parenthesis occurs in the label at all. *)
Theorem C7_training_hours_label :
  forall formData checkboxes15 checkboxes6 language logoBase64 qrBase64 today,
    let unit_word := match language with En => "hours" | Th => "ชั่วโมง" end in
    let full := Full.safetyTrainingLabel formData language in
    let pre := PreServiceOnly.safetyTrainingLabel formData language in
    nth_error
      (map snd (doc_checkbox_rows
         (Full.producedDocument formData checkboxes15 language logoBase64 qrBase64 today)))
      10 = Some full
    /\ nth_error
         (map snd (doc_checkbox_rows
            (PreServiceOnly.producedDocument formData checkboxes6 language logoBase64 qrBase64)))
         1 = Some pre
    /\ (forall hours,
          formData.(training_hours) = Some hours -> hours <> "" ->
          exists q1 q2,
            full = q1 ++ "(" ++ hours ++ " " ++ unit_word ++ ")"
            /\ pre = q2 ++ "(" ++ hours ++ " " ++ unit_word ++ ")"
            /\ contains_char "(" q1 = false /\ contains_char ")" q1 = false
            /\ contains_char "(" q2 = false /\ contains_char ")" q2 = false)
    /\ (formData.(training_hours) = None \/ formData.(training_hours) = Some "" ->
        contains_char "(" full = false /\ contains_char ")" full = false
        /\ contains_char "(" pre = false /\ contains_char ")" pre = false).
Proof.
  intros formData cb15 cb6 language logo qr today unit_word full pre.
  split; [reflexivity |]. split; [reflexivity |]. split.
  - intros hours Hh Hne. subst full pre unit_word.
    unfold Full.safetyTrainingLabel, PreServiceOnly.safetyTrainingLabel.
    rewrite Hh. destruct hours as [| c rest]; [congruence |].
    destruct language; cbn [truthy_opt truthy interpolate ifEn Language_eqb].
    + exists "Safety Training required? ", "Safety Training required? ".
      repeat split; reflexivity.
    + exists "ต้องรารการฝึกอบรมความปลอดภัยหรือไม่? ", "ต้องการการฝึกอบรมความปลอดภัยหรือไม่? ".
      repeat split; reflexivity.
  - intros Hh. subst full pre.
    unfold Full.safetyTrainingLabel, PreServiceOnly.safetyTrainingLabel.
    destruct Hh as [-> | ->]; destruct language; repeat split; reflexivity.
Qed.

Lemma C7_training_hours_label_witness :
  let formData :=
    mkFormData "" "" "" "" "" "" "" "" "" "" "" "" "" "" "" "" "" "" "" (Some "8") in
  Full.safetyTrainingLabel formData En = "Safety Training required? (8 hours)"
  /\ PreServiceOnly.safetyTrainingLabel formData En
     = "Safety Training required? (8 hours)"
  /\ contains_char "(" (Full.safetyTrainingLabel emptyForm Th) = false.
Proof.
  intros formData.
  destruct (C7_training_hours_label formData allFalse15 allFalse6 En "" "" "")
    as (_ & _ & Hsome & _).
  destruct (C7_training_hours_label emptyForm allFalse15 allFalse6 Th "" "" "")
    as (_ & _ & _ & Hnone).
  destruct (Hsome "8" eq_refl ltac:(discriminate)) as (q1 & q2 & _).
  destruct (Hnone (or_intror eq_refl)) as (Hopen & _).
  split; [reflexivity | split; [reflexivity | exact Hopen]].
Defined.

(** ** The table layout pass *)

Lemma lightHorizontalLines_rules :
  (forall n, hLineWidth lightHorizontalLines 0 n = 0%Q)
  /\ (forall n, hLineWidth lightHorizontalLines n n = 0%Q)
  /\ (forall i n, (0 < i < n)%Z -> hLineWidth lightHorizontalLines i n = 0.5%Q)
  /\ vLineWidth lightHorizontalLines = 0%Q
  /\ hLineColor lightHorizontalLines = "#E5E7EB"
  /\ paddingLeft lightHorizontalLines = 0%Q
  /\ paddingRight lightHorizontalLines = 0%Q
  /\ paddingTop lightHorizontalLines = 8%Q
  /\ paddingBottom lightHorizontalLines = 8%Q.
Proof.
  repeat split.
  - intros n. cbn. now rewrite Z.eqb_refl, orb_true_r.
  - intros i n Hi. cbn.
    destruct (Z.eqb_spec i 0); [lia |].
    destruct (Z.eqb_spec i n); [lia | reflexivity].
Qed.

(** C8. The rule set is the one described (0.5 between rows, nothing above
    the first and below the last row, no vertical rules, colour #E5E7EB,
    paddings 0, 0, 8, 8).  The pass visits the items of the content array
    only.  In the pre-service-only variant the three tables are such
    items and all carry the rule set.  In the full variant every table
    lies inside an unbreakable stack: the pass changes nothing and the
    three tables keep the layout name they were built with. *)
Theorem C8_table_layout_pass :
  forall formData checkboxes15 checkboxes6 language logoBase64 qrBase64 today,
    let full := Full.producedDocument formData checkboxes15 language logoBase64 qrBase64 today in
    let pre := PreServiceOnly.producedDocument formData checkboxes6 language logoBase64 qrBase64 in
    map table_layout (doc_tables pre)
      = [ Some (LayoutObject lightHorizontalLines);
          Some (LayoutObject lightHorizontalLines);
          Some (LayoutObject lightHorizontalLines) ]
    /\ map table_layout (doc_tables full)
       = [ Some (LayoutName "lightHorizontalLines");
           Some (LayoutName "lightHorizontalLines");
           Some (LayoutName "lightHorizontalLines") ]
    /\ full = Full.docDefinition formData checkboxes15 language logoBase64 qrBase64 today
    /\ (forall i n, (0 < i < n)%Z ->
          hLineWidth lightHorizontalLines 0 n = 0%Q
          /\ hLineWidth lightHorizontalLines n n = 0%Q
          /\ hLineWidth lightHorizontalLines i n = 0.5%Q)
    /\ vLineWidth lightHorizontalLines = 0%Q
    /\ hLineColor lightHorizontalLines = "#E5E7EB"
    /\ paddingLeft lightHorizontalLines = 0%Q
    /\ paddingRight lightHorizontalLines = 0%Q
    /\ paddingTop lightHorizontalLines = 8%Q
    /\ paddingBottom lightHorizontalLines = 8%Q.
Proof.
  intros formData cb15 cb6 language logo qr today full pre.
  destruct lightHorizontalLines_rules as (R0 & Rn & Ri & Rest).
  split; [reflexivity |]. split; [reflexivity |]. split; [reflexivity |].
  split; [| exact Rest].
  intros i n Hi. auto.
Qed.

Lemma C8_table_layout_pass_witness :
  hLineWidth lightHorizontalLines 0 6 = 0%Q
  /\ hLineWidth lightHorizontalLines 6 6 = 0%Q
  /\ hLineWidth lightHorizontalLines 3 6 = 0.5%Q.
Proof.
  destruct (C8_table_layout_pass emptyForm allFalse15 allFalse6 En "" "" "")
    as (_ & _ & _ & H & _).
  apply (H 3%Z 6%Z). split; reflexivity.
Defined.

(** ** The notes list *)

Lemma C9_notes_six_counterexample :
  map (@length string)
    (doc_lists (PreServiceOnly.producedDocument emptyForm allFalse6 En "" ""))
  <> [6%nat].
Proof. cbn. discriminate. Qed.

(** C9 (amended). The notes list is the only bulleted list of the
    document and is the fixed list of the variant rendered in the active
    language, whatever the form and the checklist contain: 5 items in the
    pre-service-only variant, 7 items in the full variant. *)
Theorem C9_notes_lists :
  forall formData checkboxes15 checkboxes6 language logoBase64 qrBase64 today,
    doc_lists
      (PreServiceOnly.producedDocument formData checkboxes6 language logoBase64 qrBase64)
    = [map (fun note => note.[language]) PreServiceOnly.importantNotes]
    /\ length (map (fun note => note.[language]) PreServiceOnly.importantNotes) = 5%nat
    /\ doc_lists
         (Full.producedDocument formData checkboxes15 language logoBase64 qrBase64 today)
       = [map (fun note => note.[language]) Full.importantNotes]
    /\ length (map (fun note => note.[language]) Full.importantNotes) = 7%nat.
Proof.
  intros. repeat split; reflexivity.
Qed.

(** * Further properties of the composer *)

Lemma createCheckboxItem_rows (checked : bool) (text : string) :
  checkbox_rows (createCheckboxItem checked text) = [(glyph checked, text)].
Proof. destruct checked; reflexivity. Qed.

Lemma checkbox_rows_applyTableLayout (item : Content) :
  checkbox_rows (applyTableLayout item) = checkbox_rows item.
Proof. destruct item; reflexivity. Qed.

Lemma lists_applyTableLayout (item : Content) :
  lists (applyTableLayout item) = lists item.
Proof. destruct item; reflexivity. Qed.

Lemma flat_map_applyTableLayout {A : Type} (f : Content -> list A) (items : list Content) :
  (forall item, f (applyTableLayout item) = f item) ->
  flat_map f (map applyTableLayout items) = flat_map f items.
Proof.
  intros Hf. induction items as [| item rest IH]; [reflexivity |].
  cbn [map flat_map]. now rewrite Hf, IH.
Qed.

Lemma full_glyphs formData checkboxes language logoBase64 qrBase64 today :
  map fst (doc_checkbox_rows
    (Full.producedDocument formData checkboxes language logoBase64 qrBase64 today))
  = map glyph (full_flags checkboxes).
Proof.
  unfold Full.producedDocument, doc_checkbox_rows, applyTableLayouts. cbn [content].
  rewrite (flat_map_applyTableLayout checkbox_rows _ checkbox_rows_applyTableLayout).
  cbn -[createCheckboxItem glyph index ifEn js_or Full.safetyTrainingLabel].
  rewrite !createCheckboxItem_rows. reflexivity.
Qed.

Lemma preServiceOnly_glyphs formData checkboxes language logoBase64 qrBase64 :
  map fst (doc_checkbox_rows
    (PreServiceOnly.producedDocument formData checkboxes language logoBase64 qrBase64))
  = map glyph (preServiceOnly_flags checkboxes).
Proof.
  unfold PreServiceOnly.producedDocument, doc_checkbox_rows, applyTableLayouts.
  cbn [content].
  rewrite (flat_map_applyTableLayout checkbox_rows _ checkbox_rows_applyTableLayout).
  cbn -[createCheckboxItem glyph index ifEn js_or PreServiceOnly.safetyTrainingLabel].
  rewrite !createCheckboxItem_rows. reflexivity.
Qed.

(** X1. In both variants the row of every checklist item shows the check
    mark exactly when the flag of that item is set, in the order of the
    rows: the nine preparation items and then the six pre-service items in
    the full variant, the six pre-service items in the other; the form,
    the language and the images have no influence on the glyphs. *)
Theorem checklist_glyphs_follow_flags :
  forall formData checkboxes15 checkboxes6 language logoBase64 qrBase64 today,
    map fst (doc_checkbox_rows
      (Full.producedDocument formData checkboxes15 language logoBase64 qrBase64 today))
    = map glyph (full_flags checkboxes15)
    /\ map fst (doc_checkbox_rows
         (PreServiceOnly.producedDocument formData checkboxes6 language logoBase64 qrBase64))
       = map glyph (preServiceOnly_flags checkboxes6).
Proof.
  intros. split; [apply full_glyphs | apply preServiceOnly_glyphs].
Qed.

(** X2. Every style token that a block of the produced tree refers to is
    defined in the style table of the document, in both variants and for
    every input. *)
Theorem style_tokens_defined :
  forall formData checkboxes15 checkboxes6 language logoBase64 qrBase64 today,
    let full := Full.producedDocument formData checkboxes15 language logoBase64 qrBase64 today in
    let pre := PreServiceOnly.producedDocument formData checkboxes6 language logoBase64 qrBase64 in
    incl (style_refs full) (style_names full)
    /\ incl (style_refs pre) (style_names pre).
Proof.
  intros formData cb15 cb6 language logo qr today full pre.
  split; intros name Hin; cbn in Hin |- *; intuition.
Qed.

(** X3. The produced tree of either variant holds exactly three tables;
    each declares the two column widths 30% and 70%, has no header row,
    and has six rows of exactly two cells. *)
Theorem tables_well_formed :
  forall formData checkboxes15 checkboxes6 language logoBase64 qrBase64 today,
    let full := Full.producedDocument formData checkboxes15 language logoBase64 qrBase64 today in
    let pre := PreServiceOnly.producedDocument formData checkboxes6 language logoBase64 qrBase64 in
    let shape := Some (["30%"; "70%"], 0%Z, [2; 2; 2; 2; 2; 2]%nat) in
    map table_shape (doc_tables full) = [shape; shape; shape]
    /\ map table_shape (doc_tables pre) = [shape; shape; shape].
Proof.
  intros. split; reflexivity.
Qed.


Lemma applyTableLayout_idempotent (item : Content) :
  applyTableLayout (applyTableLayout item) = applyTableLayout item.
Proof. destruct item; reflexivity. Qed.

Lemma applyTableLayout_other (item : Content) :
  table_layout item = None -> applyTableLayout item = item.
Proof. destruct item; cbn; congruence. Qed.

(** X5. For every document definition, the layout pass is idempotent,
    keeps the number of content items, the texts, the check box rows and
    the bulleted lists, returns every item that is not itself a table
    unchanged (so a table nested in a stack or in columns is never
    reached), and leaves every top-level table with the custom rule set. *)
Theorem layout_pass_scope :
  forall d : DocDefinition,
    applyTableLayouts (applyTableLayouts d) = applyTableLayouts d
    /\ length (content (applyTableLayouts d)) = length (content d)
    /\ doc_texts (applyTableLayouts d) = doc_texts d
    /\ doc_checkbox_rows (applyTableLayouts d) = doc_checkbox_rows d
    /\ doc_lists (applyTableLayouts d) = doc_lists d
    /\ (forall n item,
          nth_error (content d) n = Some item ->
          table_layout item = None ->
          nth_error (content (applyTableLayouts d)) n = Some item)
    /\ (forall n item,
          nth_error (content d) n = Some item ->
          table_layout item <> None ->
          option_map table_layout (nth_error (content (applyTableLayouts d)) n)
          = Some (Some (LayoutObject lightHorizontalLines))).
Proof.
  intros d. repeat split.
  - unfold applyTableLayouts; cbn [content info pageSize pageMargins defaultStyle styles].
    rewrite map_map. f_equal. apply map_ext. apply applyTableLayout_idempotent.
  - cbn. apply length_map.
  - apply doc_texts_applyTableLayouts.
  - apply flat_map_applyTableLayout, checkbox_rows_applyTableLayout.
  - apply flat_map_applyTableLayout, lists_applyTableLayout.
  - intros n item Hn Hl. cbn [applyTableLayouts content].
    rewrite nth_error_map, Hn. cbn. now rewrite applyTableLayout_other.
  - intros n item Hn Hl. cbn [applyTableLayouts content].
    rewrite nth_error_map, Hn. destruct item; cbn in *; congruence.
Qed.

Lemma layout_pass_scope_witness :
  let nested :=
    Stack [Table (LayoutName "lightHorizontalLines") ["*"] 0 [[Text "a" []]]] [] in
  let d := mkDoc None "A4" [] []
             [nested; Table (LayoutName "noBorders") ["*"] 0 [[Text "b" []]]] [] in
  nth_error (content (applyTableLayouts d)) 0 = Some nested
  /\ option_map table_layout (nth_error (content (applyTableLayouts d)) 1)
     = Some (Some (LayoutObject lightHorizontalLines)).
Proof.
  intros nested d.
  destruct (layout_pass_scope d) as (_ & _ & _ & _ & _ & Hkeep & Hset).
  split.
  - apply (Hkeep 0%nat nested); reflexivity.
  - apply (Hset 1%nat (Table (LayoutName "noBorders") ["*"] 0 [[Text "b" []]]));
      [reflexivity | discriminate].
Defined.

Lemma hLineWidth_positive (i n : nat) :
  Qgtb (hLineWidth lightHorizontalLines (Z.of_nat i) (Z.of_nat n)) 0
  = negb (Nat.eqb i 0) && negb (Nat.eqb i n).
Proof.
  cbn [hLineWidth lightHorizontalLines].
  destruct (Nat.eqb_spec i 0) as [-> | Hi0]; [reflexivity |].
  destruct (Z.eqb_spec (Z.of_nat i) 0); [lia |].
  destruct (Nat.eqb_spec i n) as [-> | Hin].
  - rewrite Z.eqb_refl. reflexivity.
  - destruct (Z.eqb_spec (Z.of_nat i) (Z.of_nat n)); [lia | reflexivity].
Qed.

Lemma filter_ext_in_seq {A : Type} (f g : A -> bool) (l : list A) :
  (forall x, In x l -> f x = g x) -> filter f l = filter g l.
Proof.
  intros H. induction l as [| x rest IH]; [reflexivity |].
  cbn. rewrite (H x (or_introl eq_refl)), IH; [reflexivity |].
  intros y Hy. apply H. now right.
Qed.

(** X6. For a table of n rows the custom rule set draws a horizontal rule
    at the positions 1 .. n-1 and nowhere else: one rule between each two
    neighbouring rows, none above the first row, none below the last, and
    none at all for an empty or a one-row table. *)
Theorem rules_between_rows_only :
  forall n : nat,
    drawn_rules lightHorizontalLines n = seq 1 (n - 1)
    /\ length (drawn_rules lightHorizontalLines n) = (n - 1)%nat.
Proof.
  intros n.
  assert (H : drawn_rules lightHorizontalLines n = seq 1 (n - 1)).
  { unfold drawn_rules.
    rewrite (filter_ext_in_seq _ (fun i => negb (Nat.eqb i 0) && negb (Nat.eqb i n)))
      by (intros i _; apply hLineWidth_positive).
    destruct n as [| m]; [reflexivity |].
    change (seq 0 (S (S m))) with (0%nat :: seq 1 (S m)).
    cbn [filter Nat.eqb negb andb].
    replace (S m - 1)%nat with m by lia.
    rewrite seq_S, filter_app. cbn [filter Nat.add].
    rewrite Nat.eqb_refl, andb_false_r, app_nil_r.
    apply forallb_filter_id. apply forallb_forall.
    intros i Hi. apply in_seq in Hi.
    destruct (Nat.eqb_spec i 0); [lia |].
    destruct (Nat.eqb_spec i (S m)); [lia | reflexivity]. }
  split; [exact H |]. rewrite H. apply length_seq.
Qed.

(** * Further properties of the image normalizer *)

Section TargetSize.
Local Open Scope Q_scope.

Lemma ratio_facts (w h : Q) :
  0 < w -> 0 < h ->
  0 < w / h /\ (w / h) * h == w /\ 0 < h / w
  /\ 800 / (w / h) == 800 * (h / w) /\ (h / w) * w == h.
Proof.
  intros Hw Hh. repeat split.
  - apply Qlt_shift_div_l; lra.
  - field. lra.
  - apply Qlt_shift_div_l; lra.
  - field. split; lra.
  - field. lra.
Qed.

(** The four ways through the two tests of [img.onload]. *)
Lemma targetSize_cases (W H : Z) :
  let w := inject_Z W in
  let h := inject_Z H in
  (w <= 800 /\ h <= 800 /\ targetSize W H = (w, h))
  \/ (w <= 800 /\ 800 < h /\ targetSize W H = (800 * (w / h), 800))
  \/ (800 < w /\ 800 / (w / h) <= 800 /\ targetSize W H = (800, 800 / (w / h)))
  \/ (800 < w /\ 800 < 800 / (w / h) /\ targetSize W H = (800 * (w / h), 800)).
Proof.
  intros w h. unfold targetSize. fold w h.
  destruct (Qgtb w 800) eqn:Gw; cbn [fst snd].
  - apply Qgtb_true in Gw.
    destruct (Qgtb (800 / (w / h)) 800) eqn:Gh.
    + apply Qgtb_true in Gh. right; right; right. auto.
    + apply Qgtb_false in Gh. right; right; left. auto.
  - apply Qgtb_false in Gw.
    destruct (Qgtb h 800) eqn:Gh.
    + apply Qgtb_true in Gh. right; left. auto.
    + apply Qgtb_false in Gh. left. auto.
Qed.

(** X7. An image that is at most 800 wide and at most 800 high is drawn
    at its own size: neither test of [img.onload] fires. *)
Theorem targetSize_within_bounds :
  forall W H : Z,
    (W <= 800)%Z -> (H <= 800)%Z ->
    targetSize W H = (inject_Z W, inject_Z H).
Proof.
  intros W H HW HH.
  assert (Hw : inject_Z W <= 800) by (rewrite (Zle_Qle W 800) in HW; exact HW).
  assert (Hh : inject_Z H <= 800) by (rewrite (Zle_Qle H 800) in HH; exact HH).
  destruct (targetSize_cases W H)
    as [(_ & _ & E) | [(_ & B & _) | [(A & _ & _) | (A & _ & _)]]];
    [exact E | lra | lra | lra].
Qed.

Lemma targetSize_within_bounds_witness :
  targetSize 640 480 = (inject_Z 640, inject_Z 480).
Proof. apply targetSize_within_bounds; discriminate. Defined.

(** X8. For an image of positive width and height the drawn size is
    positive, at most 800 in each direction, and never larger than the
    image in either direction: [loadImage] only ever scales down. *)
Theorem targetSize_fits :
  forall W H : Z,
    (0 < W)%Z -> (0 < H)%Z ->
    let width := fst (targetSize W H) in
    let height := snd (targetSize W H) in
    0 < width /\ width <= 800 /\ width <= inject_Z W
    /\ 0 < height /\ height <= 800 /\ height <= inject_Z H.
Proof.
  intros W H HW HH.
  assert (Hw : 0 < inject_Z W) by (rewrite <- (Zlt_Qlt 0); exact HW).
  assert (Hh : 0 < inject_Z H) by (rewrite <- (Zlt_Qlt 0); exact HH).
  destruct (ratio_facts _ _ Hw Hh) as (Hr & Er & Hs & Es & Es').
  destruct (targetSize_cases W H)
    as [(A & B & E) | [(A & B & E) | [(A & B & E) | (A & B & E)]]];
    rewrite E; cbn [fst snd];
    set (w := inject_Z W) in *; set (h := inject_Z H) in *.
  - repeat split; lra.
  - set (r := w / h) in *. repeat split; nra.
  - rewrite Es in *. set (s := h / w) in *. repeat split; nra.
  - rewrite Es in *. set (s := h / w) in *. set (r := w / h) in *.
    assert (r * s == 1) by (subst r s; field; split; lra).
    repeat split; nra.
Qed.

Lemma targetSize_fits_witness :
  (fst (targetSize 4032 3024) <= 800)%Q /\ (snd (targetSize 4032 3024) <= 800)%Q.
Proof.
  destruct (targetSize_fits 4032 3024 eq_refl eq_refl) as (_ & Hw & _ & _ & Hh & _).
  split; assumption.
Defined.

End TargetSize.

(** Every size from 1 x 1 to 2048 x 2048, computed in doubles. *)
Lemma ratio_check_2048 : ratio_check_all (sizes 1 2048) (sizes 1 2048) = true.
Proof. vm_compute. reflexivity. Qed.

Lemma ratio_check_all_true (widths heights : list Z) :
  ratio_check_all widths heights = true ->
  forall W H, In W widths -> In H heights -> ratio_check W H = true.
Proof.
  unfold ratio_check_all. intros Hall W H HW HH.
  rewrite forallb_forall in Hall. specialize (Hall W HW).
  rewrite forallb_forall in Hall. exact (Hall H HH).
Qed.

Lemma ratio_check_sizes (W H : Z) :
  (0 < W <= 2048)%Z -> (0 < H <= 2048)%Z -> ratio_check W H = true.
Proof.
  intros HW HH.
  apply (ratio_check_all_true _ _ ratio_check_2048); apply in_sizes; lia.
Qed.

(** X9. In the doubles of the program, for any two numbers as width and
    height: when the width or the height is greater than 800 the computed
    size touches the bound, its width or its height being exactly 800;
    when neither is greater than 800 (or one of them is NaN) the size is
    returned as it is.  For every decoded size up to 2048 x 2048 the
    computed size has the width-to-height ratio of the image up to a
    relative error of 2^-50, and neither its width nor its height is
    greater than 800. *)
Theorem targetSizeDouble_keeps_ratio :
  (forall w h : float,
     (PrimFloat.ltb 800 w = true \/ PrimFloat.ltb 800 h = true ->
      fst (targetSizeDouble w h) = 800%float \/ snd (targetSizeDouble w h) = 800%float)
     /\ (PrimFloat.ltb 800 w = false -> PrimFloat.ltb 800 h = false ->
         targetSizeDouble w h = (w, h)))
  /\ (forall W H : Z,
        (0 < W <= 2048)%Z -> (0 < H <= 2048)%Z ->
        let w := dimension W in
        let h := dimension H in
        let result := targetSizeDouble w h in
        close (fst result / snd result)%float (w / h)%float = true
        /\ PrimFloat.leb (fst result) 800 = true
        /\ PrimFloat.leb (snd result) 800 = true).
Proof.
  split.
  - intros w h. unfold targetSizeDouble, onloadSize.
    cbn [doubles greater divide times eight_hundred].
    destruct (PrimFloat.ltb 800 w) eqn:Hw; cbn [fst snd].
    + split; [| discriminate]. intros _.
      destruct (PrimFloat.ltb 800 (PrimFloat.div 800 (PrimFloat.div w h)));
        cbn [fst snd]; [right | left]; reflexivity.
    + split.
      * intros [Hf | Hh]; [discriminate |]. rewrite Hh. right. reflexivity.
      * intros _ Hh. rewrite Hh. reflexivity.
  - intros W H HW HH w h result.
    pose proof (ratio_check_sizes W H HW HH) as Hc.
    unfold ratio_check in Hc. fold w h in Hc. fold result in Hc.
    apply andb_true_iff in Hc as [Hc Hheight].
    apply andb_true_iff in Hc as [Hratio Hwidth].
    split; [exact Hratio |]. split; [exact Hwidth | exact Hheight].
Qed.

Lemma targetSizeDouble_keeps_ratio_witness :
  (fst (targetSizeDouble 600 1200) = 800%float
   \/ snd (targetSizeDouble 600 1200) = 800%float)
  /\ PrimFloat.leb (fst (targetSizeDouble (dimension 600) (dimension 1200))) 800 = true.
Proof.
  destruct targetSizeDouble_keeps_ratio as [Hany Hsizes].
  split.
  - destruct (Hany 600%float 1200%float) as [H _]. apply H. right. reflexivity.
  - destruct (Hsizes 600%Z 1200%Z ltac:(split; [reflexivity | discriminate])
                ltac:(split; [reflexivity | discriminate])) as (_ & Hw & _).
    exact Hw.
Defined.

Lemma loadImage_run (env : ImageEnv) (url : string) :
  match fetch env url with
  | None => loadImage env url = ([Fetch url], Rejected)
  | Some blob =>
      if (size blob >? maxImageSize)%Z then
        match decode env blob with
        | None => loadImage env url = ([Fetch url; ImageSrc blob], Pending)
        | Some (w, h) =>
            exists value,
              loadImage env url
              = ((if getContext2d env
                  then [ Fetch url; ImageSrc blob;
                         DrawImage (fst (targetSize w h)) (snd (targetSize w h));
                         ToDataURL "image/jpeg" 0.7 ]
                  else [Fetch url; ImageSrc blob]),
                 Resolved value)
        end
      else loadImage env url
           = ([Fetch url; ReadAsDataURL blob], Resolved (readAsDataURL env blob))
  end.
Proof.
  unfold loadImage.
  destruct (fetch env url) as [blob |]; [| reflexivity].
  destruct (size blob >? maxImageSize)%Z; [| reflexivity].
  destruct (decode env blob) as [[w h] |]; [| reflexivity].
  destruct (getContext2d env); eexists; reflexivity.
Qed.

Lemma loadImage_fetches_once (env : ImageEnv) (url : string) :
  filter is_fetch (events (loadImage env url)) = [Fetch url].
Proof.
  pose proof (loadImage_run env url) as H.
  destruct (fetch env url) as [blob |]; [| rewrite H; reflexivity].
  destruct (size blob >? maxImageSize)%Z; [| rewrite H; reflexivity].
  destruct (decode env blob) as [[w h] |]; [| rewrite H; reflexivity].
  destruct H as [value ->]. destruct (getContext2d env); reflexivity.
Qed.

Lemma loadImage_rejects_iff (env : ImageEnv) (url : string) :
  outcome (loadImage env url) = Rejected <-> fetch env url = None.
Proof.
  pose proof (loadImage_run env url) as H.
  destruct (fetch env url) as [blob |]; [| rewrite H; split; reflexivity].
  split; [| discriminate]. intros Hr. exfalso. revert Hr.
  destruct (size blob >? maxImageSize)%Z; [| rewrite H; discriminate].
  destruct (decode env blob) as [[w h] |]; [| rewrite H; discriminate].
  destruct H as [value ->]. discriminate.
Qed.

Lemma loadImage_pending_iff (env : ImageEnv) (url : string) (blob : Blob) :
  fetch env url = Some blob ->
  (outcome (loadImage env url) = Pending <->
   (500 * 1024 < size blob)%Z /\ decode env blob = None).
Proof.
  intros Hf. pose proof (loadImage_run env url) as H. rewrite Hf in H.
  destruct (Z.lt_ge_cases maxImageSize (size blob)) as [Hs | Hs].
  - rewrite (size_test_large blob Hs) in H.
    destruct (decode env blob) as [[w h] |].
    + destruct H as [value ->]. split; [discriminate | intros [_ Hn]; discriminate].
    + rewrite H. split; auto.
  - rewrite (size_test_small blob Hs) in H. rewrite H.
    split; [discriminate |]. intros [Hl _]. unfold maxImageSize in Hs. lia.
Qed.

(** X10. [loadImage] fetches its own url once and nothing else, and it
    rejects exactly when the fetch rejects.  Once the fetch has answered
    with a blob, [loadImage] never settles exactly when the blob is above
    the size threshold and does not decode. *)
Theorem loadImage_outcomes :
  forall (env : ImageEnv) (url : string),
    filter is_fetch (events (loadImage env url)) = [Fetch url]
    /\ (outcome (loadImage env url) = Rejected <-> fetch env url = None)
    /\ (forall blob,
          fetch env url = Some blob ->
          (outcome (loadImage env url) = Pending <->
           (500 * 1024 < size blob)%Z /\ decode env blob = None)).
Proof.
  intros env url. split; [apply loadImage_fetches_once |].
  split; [apply loadImage_rejects_iff |].
  intros blob. apply loadImage_pending_iff.
Qed.

Lemma loadImage_outcomes_witness :
  outcome (loadImage (sampleImages smallBlob None true) "/Logo.png") <> Pending.
Proof.
  destruct (loadImage_outcomes (sampleImages smallBlob None true) "/Logo.png")
    as (_ & _ & H).
  intros Hp. apply (H smallBlob eq_refl) in Hp as [Hl _].
  vm_compute in Hl. discriminate Hl.
Defined.

Section GeneratePDF.
Variables (browser : Browser) (formData : FormData) (language : Language).
Variables (checkboxes15 : Full.Checkboxes) (checkboxes6 : PreServiceOnly.Checkboxes).
Hypothesis window : browser.(window_defined) = true.

Lemma full_generatePDF_run :
  Full.generatePDF browser formData checkboxes15 language
  = match outcome (loadImage browser.(images) "/Logo.png"),
          outcome (loadImage browser.(images) "/QR.jpeg") with
    | Resolved l, Resolved q =>
        ((SetFonts ["Roboto"]
            :: events (loadImage browser.(images) "/Logo.png")
            ++ events (loadImage browser.(images) "/QR.jpeg") ++ [CreatePdf])%list,
         settle (browser.(getBlob)
                   (Full.producedDocument formData checkboxes15 language l q
                      browser.(localeDate))))
    | Rejected, _ | _, Rejected =>
        ((SetFonts ["Roboto"]
            :: events (loadImage browser.(images) "/Logo.png")
            ++ events (loadImage browser.(images) "/QR.jpeg"))%list, Rejected)
    | _, _ =>
        ((SetFonts ["Roboto"]
            :: events (loadImage browser.(images) "/Logo.png")
            ++ events (loadImage browser.(images) "/QR.jpeg"))%list, Pending)
    end.
Proof.
  unfold Full.generatePDF. rewrite window. cbn [negb].
  destruct (loadImage browser.(images) "/Logo.png") as [t1 o1].
  destruct (loadImage browser.(images) "/QR.jpeg") as [t2 o2].
  unfold events, outcome.
  destruct o1, o2; cbn; try reflexivity.
  destruct (browser.(getBlob) _); cbn; rewrite <- app_assoc; reflexivity.
Qed.

Lemma preServiceOnly_generatePDF_run :
  PreServiceOnly.generatePDF browser formData checkboxes6 language
  = match outcome (loadImage browser.(images) "/Logo.png"),
          outcome (loadImage browser.(images) "/QR.jpeg") with
    | Resolved l, Resolved q =>
        ((events (loadImage browser.(images) "/Logo.png")
            ++ events (loadImage browser.(images) "/QR.jpeg")
            ++ [SetFonts ["Roboto"; "THSarabunNew"]; CreatePdf])%list,
         settle (browser.(getBlob)
                   (PreServiceOnly.producedDocument formData checkboxes6 language l q)))
    | Rejected, _ | _, Rejected =>
        ((events (loadImage browser.(images) "/Logo.png")
            ++ events (loadImage browser.(images) "/QR.jpeg"))%list, Rejected)
    | _, _ =>
        ((events (loadImage browser.(images) "/Logo.png")
            ++ events (loadImage browser.(images) "/QR.jpeg"))%list, Pending)
    end.
Proof.
  unfold PreServiceOnly.generatePDF. rewrite window. cbn [negb].
  destruct (loadImage browser.(images) "/Logo.png") as [t1 o1].
  destruct (loadImage browser.(images) "/QR.jpeg") as [t2 o2].
  unfold events, outcome.
  destruct o1, o2; cbn; try reflexivity.
  destruct (browser.(getBlob) _); cbn; rewrite <- app_assoc; reflexivity.
Qed.

End GeneratePDF.

Lemma filter_is_fetch_loadImage (env : ImageEnv) (url : string) :
  filter is_fetch (events (loadImage env url)) = [Fetch url].
Proof. apply loadImage_fetches_once. Qed.

Lemma filter_is_createPdf_loadImage (env : ImageEnv) (url : string) :
  filter is_createPdf (events (loadImage env url)) = [].
Proof.
  pose proof (loadImage_never_renders env url) as H.
  induction (events (loadImage env url)) as [| e rest IH]; [reflexivity |].
  cbn. destruct e; cbn; try (apply IH; intros Hin; apply H; now right).
  exfalso. apply H. now left.
Qed.

(** X11. In a browser, when the fetch of the logo or of the QR code
    rejects, [generatePDF] rejects (the catch block rethrows) and the
    rendering engine is never called, whatever the other image does. *)
Theorem fetch_failure_rejects :
  forall (browser : Browser) formData checkboxes15 checkboxes6 language,
    browser.(window_defined) = true ->
    fetch browser.(images) "/Logo.png" = None
    \/ fetch browser.(images) "/QR.jpeg" = None ->
    let full := Full.generatePDF browser formData checkboxes15 language in
    let pre := PreServiceOnly.generatePDF browser formData checkboxes6 language in
    outcome full = Rejected /\ outcome pre = Rejected
    /\ filter is_createPdf (events full) = []
    /\ filter is_createPdf (events pre) = [].
Proof.
  intros browser formData cb15 cb6 language Hw Hfail full pre.
  subst full pre.
  rewrite (full_generatePDF_run browser formData language cb15 Hw).
  rewrite (preServiceOnly_generatePDF_run browser formData language cb6 Hw).
  pose proof (filter_is_createPdf_loadImage browser.(images) "/Logo.png") as C1.
  pose proof (filter_is_createPdf_loadImage browser.(images) "/QR.jpeg") as C2.
  assert (Hrej : outcome (loadImage browser.(images) "/Logo.png") = Rejected
                 \/ outcome (loadImage browser.(images) "/QR.jpeg") = Rejected).
  { destruct Hfail as [Hf | Hf]; [left | right];
      apply loadImage_rejects_iff; exact Hf. }
  destruct (outcome (loadImage browser.(images) "/Logo.png")) as [l | |];
    destruct (outcome (loadImage browser.(images) "/QR.jpeg")) as [q | |];
    try (destruct Hrej; discriminate);
    cbn [events outcome fst snd filter is_createPdf];
    rewrite !filter_app, C1, C2; repeat split; reflexivity.
Qed.

Lemma fetch_failure_rejects_witness :
  let env := mkImageEnv (fun _ => None) (fun _ => "") (fun _ => None) true
               (fun _ _ _ _ _ => "") in
  outcome (Full.generatePDF (sampleBrowser true env) emptyForm allFalse15 En) = Rejected
  /\ outcome (PreServiceOnly.generatePDF (sampleBrowser true env) emptyForm allFalse6 En)
     = Rejected.
Proof.
  intros env.
  destruct (fetch_failure_rejects (sampleBrowser true env) emptyForm allFalse15
              allFalse6 En eq_refl (or_introl eq_refl)) as (HF & HP & _).
  split; assumption.
Defined.

(** X12. In a browser, once both images are loaded [generatePDF] settles
    as the engine does for the produced tree: the engine's blob is the
    result, a throw of the engine is a rejection, a callback that never
    comes leaves the call pending.  With a window the call never resolves
    with null. *)
Theorem generatePDF_settles_as_engine :
  forall (browser : Browser) formData checkboxes15 checkboxes6 language,
    browser.(window_defined) = true ->
    let full := Full.generatePDF browser formData checkboxes15 language in
    let pre := PreServiceOnly.generatePDF browser formData checkboxes6 language in
    (forall logo qr,
       outcome (loadImage browser.(images) "/Logo.png") = Resolved logo ->
       outcome (loadImage browser.(images) "/QR.jpeg") = Resolved qr ->
       outcome full
       = settle (browser.(getBlob)
                   (Full.producedDocument formData checkboxes15 language logo qr
                      browser.(localeDate)))
       /\ outcome pre
          = settle (browser.(getBlob)
                      (PreServiceOnly.producedDocument formData checkboxes6 language
                         logo qr)))
    /\ outcome full <> Resolved None
    /\ outcome pre <> Resolved None.
Proof.
  intros browser formData cb15 cb6 language Hw full pre.
  subst full pre.
  rewrite (full_generatePDF_run browser formData language cb15 Hw).
  rewrite (preServiceOnly_generatePDF_run browser formData language cb6 Hw).
  split; [| split].
  - intros logo qr -> ->. split; reflexivity.
  - destruct (outcome (loadImage browser.(images) "/Logo.png")) as [l | |];
      destruct (outcome (loadImage browser.(images) "/QR.jpeg")) as [q | |];
      cbn; try discriminate.
    destruct (browser.(getBlob) _); discriminate.
  - destruct (outcome (loadImage browser.(images) "/Logo.png")) as [l | |];
      destruct (outcome (loadImage browser.(images) "/QR.jpeg")) as [q | |];
      cbn; try discriminate.
    destruct (browser.(getBlob) _); discriminate.
Qed.

Lemma generatePDF_settles_as_engine_witness :
  let browser :=
    mkBrowser true (sampleImages smallBlob None true) "02/11/2026" (fun _ => Rejected) in
  outcome (Full.generatePDF browser acmeForm allFalse15 Th) = Rejected
  /\ outcome (PreServiceOnly.generatePDF browser acmeForm allFalse6 Th) = Rejected.
Proof.
  intros browser.
  destruct (generatePDF_settles_as_engine browser acmeForm allFalse15 allFalse6 Th eq_refl)
    as [H _].
  exact (H "data:image/png;base64,iVBORw==" "data:image/png;base64,iVBORw=="
           eq_refl eq_refl).
Defined.

(** X13. In a browser every call of [generatePDF] of the form's composer
    (src/utils/generatePDF.ts, whose imports are static) fetches the logo
    and then the QR code, each once and nothing else (no cache), and calls
    the rendering engine at most once, namely exactly when both images
    were loaded. *)
Theorem generatePDF_effects :
  forall (browser : Browser) formData checkboxes language,
    browser.(window_defined) = true ->
    let full := Full.generatePDF browser formData checkboxes language in
    let loaded :=
      exists logo qr,
        outcome (loadImage browser.(images) "/Logo.png") = Resolved logo
        /\ outcome (loadImage browser.(images) "/QR.jpeg") = Resolved qr in
    filter is_fetch (events full) = [Fetch "/Logo.png"; Fetch "/QR.jpeg"]
    /\ (loaded -> filter is_createPdf (events full) = [CreatePdf])
    /\ (~ loaded -> filter is_createPdf (events full) = []).
Proof.
  intros browser formData cb15 language Hw full loaded.
  subst full loaded.
  rewrite (full_generatePDF_run browser formData language cb15 Hw).
  pose proof (filter_is_createPdf_loadImage browser.(images) "/Logo.png") as C1.
  pose proof (filter_is_createPdf_loadImage browser.(images) "/QR.jpeg") as C2.
  pose proof (filter_is_fetch_loadImage browser.(images) "/Logo.png") as F1.
  pose proof (filter_is_fetch_loadImage browser.(images) "/QR.jpeg") as F2.
  destruct (outcome (loadImage browser.(images) "/Logo.png")) as [l | |];
    destruct (outcome (loadImage browser.(images) "/QR.jpeg")) as [q | |];
    cbn [events outcome fst snd filter is_createPdf is_fetch];
    rewrite !filter_app, ?C1, ?C2, ?F1, ?F2;
    cbn [events outcome fst snd filter is_createPdf is_fetch app];
    (split; [reflexivity |]);
    (split; [intros (l' & q' & Hl & Hq); try discriminate; reflexivity
            | intros Hn; try reflexivity; exfalso; apply Hn; eauto ]).
Qed.

Lemma generatePDF_effects_witness :
  let browser := sampleBrowser true (sampleImages smallBlob None true) in
  filter is_fetch (events (Full.generatePDF browser emptyForm allFalse15 En))
  = [Fetch "/Logo.png"; Fetch "/QR.jpeg"]
  /\ filter is_createPdf (events (Full.generatePDF browser emptyForm allFalse15 En))
     = [CreatePdf].
Proof.
  intros browser.
  destruct (generatePDF_effects browser emptyForm allFalse15 En eq_refl)
    as (HF & Hloaded & _).
  split; [exact HF |].
  apply Hloaded. eexists; eexists; split; reflexivity.
Defined.

Lemma js_split_nonempty (sep : ascii) (s : string) : js_split sep s <> [].
Proof.
  destruct s as [| c rest]; cbn; [discriminate |].
  destruct (Ascii.eqb c sep); [discriminate |].
  destruct (js_split sep rest); discriminate.
Qed.

Lemma split_join_slash_dot_spec (s : string) :
  split_join_slash_dot s = js_join "." (js_split "/" s).
Proof.
  induction s as [| c rest IH]; [reflexivity |].
  cbn [split_join_slash_dot js_split]. rewrite IH.
  pose proof (js_split_nonempty "/" rest) as Hne.
  destruct (Ascii.eqb c "/"%char).
  - destruct (js_split "/" rest) as [| piece pieces]; [congruence |]. reflexivity.
  - destruct (js_split "/" rest) as [| piece pieces]; [congruence |].
    destruct pieces; reflexivity.
Qed.

Lemma split_join_slash_dot_get (s : string) (n : nat) :
  String.get n (split_join_slash_dot s)
  = option_map (fun c => if Ascii.eqb c "/"%char then "."%char else c)
      (String.get n s).
Proof.
  revert n. induction s as [| c rest IH]; intros n; [reflexivity |].
  destruct n as [| n]; [reflexivity |]. cbn. apply IH.
Qed.

(** X14. The date line of the full variant is the label of the language
    followed by the locale date split at its slashes and joined with
    dots.  In this string every slash of the locale date has become a
    dot and every other character is kept at its place, so the length is
    kept, the line contains no slash, and a date without a slash is left
    as it is. *)
Theorem date_line_dots :
  forall (localeDate : string) (language : Language),
    (Full.docHeader.date localeDate).[language]
    = (match language with En => "Date: " | Th => "วันที่: " end)
        ++ js_join "." (js_split "/" localeDate)
    /\ js_join "." (js_split "/" localeDate) = split_join_slash_dot localeDate
    /\ (forall n,
          String.get n (split_join_slash_dot localeDate)
          = match String.get n localeDate with
            | Some c => Some (if Ascii.eqb c "/"%char then "."%char else c)
            | None => None
            end)
    /\ contains_char "/" (Full.docHeader.date localeDate).[language] = false
    /\ String.length (split_join_slash_dot localeDate) = String.length localeDate
    /\ split_join_slash_dot (split_join_slash_dot localeDate)
       = split_join_slash_dot localeDate
    /\ (contains_char "/" localeDate = false ->
        split_join_slash_dot localeDate = localeDate).
Proof.
  intros localeDate language.
  assert (Hno : contains_char "/" (split_join_slash_dot localeDate) = false).
  { induction localeDate as [| c rest IH]; [reflexivity |].
    cbn. destruct (Ascii.eqb c "/"%char) eqn:Hc; [exact IH |].
    rewrite Hc, IH. reflexivity. }
  assert (Hid : forall s, contains_char "/" s = false -> split_join_slash_dot s = s).
  { induction s as [| c rest IH]; [reflexivity |].
    cbn. intros H. apply orb_false_iff in H as [Hc Hrest].
    rewrite Hc, (IH Hrest). reflexivity. }
  split; [| split; [| split; [| split; [| split; [| split]]]]].
  - rewrite <- split_join_slash_dot_spec. destruct language; reflexivity.
  - symmetry. apply split_join_slash_dot_spec.
  - intros n. rewrite split_join_slash_dot_get.
    destruct (String.get n localeDate); reflexivity.
  - destruct language; cbn; exact Hno.
  - clear Hno. induction localeDate as [| c rest IH]; [reflexivity |].
    cbn. now rewrite IH.
  - apply Hid, Hno.
  - apply Hid.
Qed.

Lemma date_line_dots_witness :
  split_join_slash_dot "02.11.2026" = "02.11.2026"
  /\ (Full.docHeader.date "02/11/2026").[En] = "Date: 02.11.2026".
Proof.
  destruct (date_line_dots "02.11.2026" En) as (_ & _ & _ & _ & _ & _ & H).
  split; [apply H; reflexivity |].
  destruct (date_line_dots "02/11/2026" En) as (H1 & _). exact H1.
Defined.

(** * Properties of the form component *)

Module PSC := PumpServiceChecklist.

Lemma get_set {V : Type} (o : JSObject.t V) (k k' : string) (v : V) :
  JSObject.get (JSObject.set o k v) k'
  = if String.eqb k k' then Some v else JSObject.get o k'.
Proof.
  induction o as [| [k0 v0] rest IH]; cbn.
  - destruct (String.eqb k k'); reflexivity.
  - destruct (String.eqb_spec k0 k) as [-> | Hk0]; cbn.
    + destruct (String.eqb k k'); reflexivity.
    + rewrite IH. destruct (String.eqb_spec k0 k') as [-> | Hk0'];
        [| reflexivity].
      destruct (String.eqb_spec k k'); [congruence | reflexivity].
Qed.

Lemma keys_set_present {V : Type} (o : JSObject.t V) (k : string) (v : V) :
  In k (JSObject.keys o) -> JSObject.keys (JSObject.set o k v) = JSObject.keys o.
Proof.
  induction o as [| [k0 v0] rest IH]; cbn; [intros [] |].
  intros Hin. destruct (String.eqb_spec k0 k) as [-> | Hk0]; [reflexivity |].
  cbn. f_equal. apply IH. destruct Hin; [congruence | assumption].
Qed.

Lemma get_absent {V : Type} (o : JSObject.t V) (k : string) :
  ~ In k (JSObject.keys o) -> JSObject.get o k = None.
Proof.
  induction o as [| [k0 v0] rest IH]; cbn; [reflexivity |].
  intros Hin. destruct (String.eqb_spec k0 k) as [-> | Hk0]; [tauto |].
  apply IH. tauto.
Qed.

Lemma get_present {V : Type} (o : JSObject.t V) (k : string) :
  In k (JSObject.keys o) -> exists v, JSObject.get o k = Some v.
Proof.
  induction o as [| [k0 v0] rest IH]; cbn; [intros [] |].
  intros Hin. destruct (String.eqb_spec k0 k) as [-> | Hk0]; [eauto |].
  apply IH. destruct Hin; [congruence | assumption].
Qed.

(** Setting an own property to the value it has changes nothing. *)
Lemma set_same {V : Type} (o : JSObject.t V) (k : string) (v : V) :
  JSObject.get o k = Some v -> JSObject.set o k v = o.
Proof.
  induction o as [| [k0 v0] rest IH]; cbn; [discriminate |].
  destruct (String.eqb_spec k0 k) as [-> | Hk0].
  - intros [= ->]. reflexivity.
  - intros H. now rewrite IH.
Qed.

Lemma set_set {V : Type} (o : JSObject.t V) (k : string) (v v' : V) :
  JSObject.set (JSObject.set o k v) k v' = JSObject.set o k v'.
Proof.
  induction o as [| [k0 v0] rest IH]; cbn.
  - now rewrite String.eqb_refl.
  - destruct (String.eqb_spec k0 k) as [-> | Hk0]; cbn.
    + now rewrite String.eqb_refl.
    + destruct (String.eqb_spec k0 k); [congruence |]. now rewrite IH.
Qed.

Lemma key_in_initial (id : PSC.CheckboxId) :
  In (PSC.key id) (JSObject.keys PSC.initialState.(PSC.checkboxes)).
Proof. destruct id; cbn; tauto. Qed.

Lemma handleSubmit_keeps browser createObjectURL s s' :
  snd (PSC.handleSubmit browser createObjectURL s) = Resolved s' ->
  s'.(PSC.language) = s.(PSC.language)
  /\ s'.(PSC.formData) = s.(PSC.formData)
  /\ s'.(PSC.checkboxes) = s.(PSC.checkboxes).
Proof.
  unfold PSC.handleSubmit.
  destruct (outcome _) as [[blob |] | |]; cbn; intros [= <-]; cbn; auto.
Qed.

Lemma handleClosePreview_keeps s :
  (snd (PSC.handleClosePreview s)).(PSC.language) = s.(PSC.language)
  /\ (snd (PSC.handleClosePreview s)).(PSC.formData) = s.(PSC.formData)
  /\ (snd (PSC.handleClosePreview s)).(PSC.checkboxes) = s.(PSC.checkboxes).
Proof.
  unfold PSC.handleClosePreview.
  destruct s.(PSC.pdfPreviewUrl) as [url |]; [destruct (truthy url) |]; cbn; auto.
Qed.

(** The check box object always has the fifteen keys it starts with. *)
Lemma reachable_checkbox_keys s :
  PSC.Reachable s ->
  JSObject.keys s.(PSC.checkboxes) = JSObject.keys PSC.initialState.(PSC.checkboxes).
Proof.
  induction 1 as [| s name value _ IH | s id _ IH | s lang _ IH
                  | s browser mk s' _ IH Hs | s _ IH].
  - reflexivity.
  - exact IH.
  - cbn [PSC.handleCheckboxChange PSC.checkboxes].
    rewrite keys_set_present; [exact IH |]. rewrite IH. apply key_in_initial.
  - exact IH.
  - destruct (handleSubmit_keeps _ _ _ _ Hs) as (_ & _ & ->). exact IH.
  - destruct (handleClosePreview_keeps s) as (_ & _ & ->). exact IH.
Qed.

(** The form object never loses one of the twenty fields it starts with. *)
Lemma reachable_form_keys s :
  PSC.Reachable s ->
  incl (JSObject.keys PSC.initialState.(PSC.formData)) (JSObject.keys s.(PSC.formData)).
Proof.
  induction 1 as [| s name value _ IH | s id _ IH | s lang _ IH
                  | s browser mk s' _ IH Hs | s _ IH].
  - apply incl_refl.
  - cbn [PSC.handleInputChange PSC.formData]. intros k Hk. specialize (IH k Hk).
    clear Hk. induction s.(PSC.formData) as [| [k0 v0] rest IHo]; [destruct IH |].
    cbn in *. destruct (String.eqb k0 name); cbn; [exact IH |].
    destruct IH as [-> | IH]; [now left | right; now apply IHo].
  - exact IH.
  - exact IH.
  - destruct (handleSubmit_keeps _ _ _ _ Hs) as (_ & -> & _). exact IH.
  - destruct (handleClosePreview_keeps s) as (_ & -> & _). exact IH.
Qed.

(** X15. Whatever the user did in the form, the document that a submit
    hands to the engine marks the rows of eleven check boxes as the form
    shows them, and never marks the rows for power isolation, auxiliary
    systems, coupling guard and coupling: the form keeps these four under
    the keys power_isolation, aux_systems, coupling_guard and coupling,
    while [generatePDF] reads power_isolated, auxiliary_disconnected,
    coupling_guard_removed and coupling_disconnected, which the state
    object never has. *)
Theorem submitted_check_marks :
  forall (s : PSC.State) (logoBase64 qrBase64 today : string),
    PSC.Reachable s ->
    map fst (doc_checkbox_rows (PSC.submitted s logoBase64 qrBase64 today))
    = map glyph
        [ false; PSC.shown s PSC.valves_locked; PSC.shown s PSC.pump_drained;
          false; false; false;
          PSC.shown s PSC.pump_cleaned; PSC.shown s PSC.openings_protected;
          PSC.shown s PSC.photos_taken;
          PSC.shown s PSC.system_flush; PSC.shown s PSC.safety_training;
          PSC.shown s PSC.harmless_form; PSC.shown s PSC.sds;
          PSC.shown s PSC.alignment_report; PSC.shown s PSC.operation_records ].
Proof.
  intros s logo qr today Hs.
  pose proof (reachable_checkbox_keys s Hs) as Hkeys.
  assert (Hnone : forall k,
             ~ In k (JSObject.keys PSC.initialState.(PSC.checkboxes)) ->
             JSObject.get s.(PSC.checkboxes) k = None).
  { intros k Hk. apply get_absent. now rewrite Hkeys. }
  unfold PSC.submitted. rewrite full_glyphs.
  unfold full_flags, PSC.asCheckboxes, PSC.shown.
  cbn [Full.power_isolated Full.valves_locked Full.pump_drained
       Full.auxiliary_disconnected Full.coupling_guard_removed
       Full.coupling_disconnected Full.pump_cleaned Full.openings_protected
       Full.photos_taken Full.system_flush Full.safety_training Full.harmless_form
       Full.sds Full.alignment_report Full.operation_records PSC.key].
  rewrite (Hnone "power_isolated"), (Hnone "auxiliary_disconnected"),
    (Hnone "coupling_guard_removed"), (Hnone "coupling_disconnected");
    try reflexivity;
    cbn; intuition discriminate.
Qed.

Lemma submitted_check_marks_witness :
  let s := PSC.handleCheckboxChange PSC.power_isolation
             (PSC.handleCheckboxChange PSC.valves_locked PSC.initialState) in
  PSC.shown s PSC.power_isolation = true
  /\ PSC.shown s PSC.valves_locked = true
  /\ firstn 2 (map fst (doc_checkbox_rows (PSC.submitted s "" "" "02/11/2026")))
     = [unchecked_glyph; checked_glyph].
Proof.
  intros s.
  pose proof (submitted_check_marks s "" "" "02/11/2026"
                (PSC.reach_checkbox _ _ (PSC.reach_checkbox _ _ PSC.reach_initial)))
    as H.
  split; [reflexivity | split; [reflexivity |]].
  rewrite H. reflexivity.
Defined.

(** X16. In a reachable state a click on a check box flips what the form
    shows for it and leaves the other fourteen as they are, and a second
    click on it restores the check box object exactly. *)
Theorem checkbox_click_round_trip :
  forall (s : PSC.State) (id : PSC.CheckboxId),
    PSC.Reachable s ->
    PSC.shown (PSC.handleCheckboxChange id s) id = negb (PSC.shown s id)
    /\ (forall id', id' <> id ->
          PSC.shown (PSC.handleCheckboxChange id s) id' = PSC.shown s id')
    /\ (PSC.handleCheckboxChange id (PSC.handleCheckboxChange id s)).(PSC.checkboxes)
       = s.(PSC.checkboxes).
Proof.
  intros s id Hs.
  pose proof (reachable_checkbox_keys s Hs) as Hkeys.
  assert (Hin : In (PSC.key id) (JSObject.keys s.(PSC.checkboxes)))
    by (rewrite Hkeys; apply key_in_initial).
  destruct (get_present _ _ Hin) as [b Hb].
  unfold PSC.shown, PSC.handleCheckboxChange. cbn [PSC.checkboxes].
  split; [| split].
  - rewrite get_set, String.eqb_refl. reflexivity.
  - intros id' Hne. rewrite get_set.
    destruct (String.eqb_spec (PSC.key id) (PSC.key id')) as [E | _];
      [| reflexivity].
    exfalso. apply Hne. destruct id, id'; try reflexivity; discriminate E.
  - rewrite get_set, String.eqb_refl, set_set. cbn [PSC.flag].
    rewrite Hb. cbn [PSC.flag]. rewrite negb_involutive.
    apply set_same. exact Hb.
Qed.

Lemma checkbox_click_round_trip_witness :
  PSC.shown (PSC.handleCheckboxChange PSC.sds PSC.initialState) PSC.sds = true
  /\ (PSC.handleCheckboxChange PSC.sds
        (PSC.handleCheckboxChange PSC.sds PSC.initialState)).(PSC.checkboxes)
     = PSC.initialState.(PSC.checkboxes).
Proof.
  destruct (checkbox_click_round_trip PSC.initialState PSC.sds PSC.reach_initial)
    as (H1 & _ & H3).
  split; [exact H1 | exact H3].
Defined.

Lemma read_set (o : JSObject.t string) (k k' value : string) :
  PSC.read (JSObject.set o k value) k'
  = if String.eqb k k' then value else PSC.read o k'.
Proof. unfold PSC.read. rewrite get_set. destruct (String.eqb k k'); reflexivity. Qed.

Lemma submitted_value_cells s logoBase64 qrBase64 today :
  value_cells (PSC.submitted s logoBase64 qrBase64 today)
  = map (fun name => placeholder (PSC.read s.(PSC.formData) name)) PSC.tableInputs
  /\ doc_paragraphs (PSC.submitted s logoBase64 qrBase64 today)
     = [placeholder (PSC.read s.(PSC.formData) "service_reason")].
Proof.
  unfold PSC.submitted.
  destruct (full_value_cells (PSC.asFormData s.(PSC.formData))
              (PSC.asCheckboxes s.(PSC.checkboxes)) s.(PSC.language)
              logoBase64 qrBase64 today) as [-> ->].
  split; reflexivity.
Qed.

Lemma tableInputs_NoDup : NoDup PSC.tableInputs.
Proof.
  unfold PSC.tableInputs.
  repeat (apply NoDup_cons; [cbn; intuition discriminate |]).
  apply NoDup_nil.
Qed.

(** X17. Typing a value into one of the eighteen inputs that feed the
    tables changes exactly the value cell of that input in the submitted
    document, to the value or to the dash when the value is empty; the
    other seventeen cells stay as they were.  Typing into the
    service-reason input sets the service-reason paragraph likewise. *)
Theorem input_reaches_its_cell :
  forall (s : PSC.State) (name value : string) (i : nat)
         (logoBase64 qrBase64 today : string),
    nth_error PSC.tableInputs i = Some name ->
    let before := value_cells (PSC.submitted s logoBase64 qrBase64 today) in
    let after :=
      value_cells
        (PSC.submitted (PSC.handleInputChange name value s) logoBase64 qrBase64 today) in
    nth_error after i = Some (placeholder value)
    /\ (forall j, j <> i -> nth_error after j = nth_error before j)
    /\ doc_paragraphs
         (PSC.submitted (PSC.handleInputChange "service_reason" value s)
            logoBase64 qrBase64 today)
       = [placeholder value].
Proof.
  intros s name value i logo qr today Hi before after.
  subst before after.
  rewrite !(proj1 (submitted_value_cells _ _ _ _)).
  rewrite (proj2 (submitted_value_cells _ _ _ _)).
  cbn [PSC.handleInputChange PSC.formData].
  split; [| split].
  - rewrite nth_error_map, Hi. cbn. now rewrite read_set, String.eqb_refl.
  - intros j Hj. rewrite !nth_error_map.
    destruct (nth_error PSC.tableInputs j) as [name' |] eqn:Hn; [| reflexivity].
    cbn. rewrite read_set.
    destruct (String.eqb_spec name name') as [<- | _]; [| reflexivity].
    exfalso. apply Hj.
    apply (proj1 (NoDup_nth_error PSC.tableInputs) tableInputs_NoDup).
    + apply nth_error_Some. congruence.
    + congruence.
  - now rewrite read_set, String.eqb_refl.
Qed.

Lemma input_reaches_its_cell_witness :
  nth_error
    (value_cells
       (PSC.submitted (PSC.handleInputChange "phone" "02 320 1994" PSC.initialState)
          "" "" "02/11/2026")) 4
  = Some "02 320 1994".
Proof.
  destruct (input_reaches_its_cell PSC.initialState "phone" "02 320 1994" 4
              "" "" "02/11/2026" eq_refl) as [H _].
  exact H.
Defined.

(** X18. In every reachable state the form object still has its twenty
    fields, so [generatePDF] never reads an undefined field from it, and
    the check box object has exactly the fifteen keys of the form. *)
Theorem reachable_state_shape :
  forall s : PSC.State,
    PSC.Reachable s ->
    (forall name, In name (JSObject.keys PSC.initialState.(PSC.formData)) ->
       exists value, JSObject.get s.(PSC.formData) name = Some value)
    /\ (PSC.asFormData s.(PSC.formData)).(training_hours) <> None
    /\ JSObject.keys s.(PSC.checkboxes)
       = map PSC.key
           [ PSC.system_flush; PSC.safety_training; PSC.harmless_form; PSC.sds;
             PSC.alignment_report; PSC.operation_records; PSC.power_isolation;
             PSC.valves_locked; PSC.pump_drained; PSC.aux_systems;
             PSC.coupling_guard; PSC.coupling; PSC.pump_cleaned;
             PSC.openings_protected; PSC.photos_taken ].
Proof.
  intros s Hs.
  pose proof (reachable_form_keys s Hs) as Hform.
  assert (Hall : forall name,
             In name (JSObject.keys PSC.initialState.(PSC.formData)) ->
             exists value, JSObject.get s.(PSC.formData) name = Some value).
  { intros name Hin. apply get_present, Hform, Hin. }
  split; [exact Hall | split].
  - cbn [PSC.asFormData training_hours].
    destruct (Hall "training_hours") as [v ->]; [cbn; tauto | discriminate].
  - rewrite (reachable_checkbox_keys s Hs). reflexivity.
Qed.

Lemma reachable_state_shape_witness :
  exists value,
    JSObject.get
      (PSC.handleInputChange "email" "a@b.c" PSC.initialState).(PSC.formData)
      "service_reason" = Some value.
Proof.
  destruct (reachable_state_shape
              (PSC.handleInputChange "email" "a@b.c" PSC.initialState)
              (PSC.reach_input _ _ _ PSC.reach_initial)) as [H _].
  apply H. cbn. tauto.
Defined.

Lemma full_fetch_failure (browser : Browser) formData checkboxes language :
  browser.(window_defined) = true ->
  fetch browser.(images) "/Logo.png" = None
  \/ fetch browser.(images) "/QR.jpeg" = None ->
  outcome (Full.generatePDF browser formData checkboxes language) = Rejected.
Proof.
  intros Hw Hfail.
  rewrite (full_generatePDF_run browser formData language checkboxes Hw).
  assert (Hrej : outcome (loadImage browser.(images) "/Logo.png") = Rejected
                 \/ outcome (loadImage browser.(images) "/QR.jpeg") = Rejected).
  { destruct Hfail as [Hf | Hf]; [left | right];
      apply loadImage_rejects_iff; exact Hf. }
  destruct (outcome (loadImage browser.(images) "/Logo.png")) as [l | |];
    destruct (outcome (loadImage browser.(images) "/QR.jpeg")) as [q | |];
    try (destruct Hrej; discriminate); reflexivity.
Qed.

(** X19. [handleSubmit] never rejects and never changes the form, the
    check boxes or the language.  Without a window it does nothing at
    all.  When the fetch of an image rejects it logs the error, shows
    exactly one alert, in the language of the form, creates no object URL
    and leaves the state as it was. *)
Theorem submit_failure_is_alerted :
  forall (browser : Browser) (createObjectURL : Blob -> string) (s : PSC.State),
    let result := PSC.handleSubmit browser createObjectURL s in
    snd result <> Rejected
    /\ (forall s', snd result = Resolved s' ->
          s'.(PSC.language) = s.(PSC.language)
          /\ s'.(PSC.formData) = s.(PSC.formData)
          /\ s'.(PSC.checkboxes) = s.(PSC.checkboxes))
    /\ (browser.(window_defined) = false -> result = ([], Resolved s))
    /\ (browser.(window_defined) = true ->
        fetch browser.(images) "/Logo.png" = None
        \/ fetch browser.(images) "/QR.jpeg" = None ->
        snd result = Resolved s
        /\ In PSC.ConsoleError (fst result)
        /\ filter is_alert (fst result)
           = [ PSC.Alert
                 (match s.(PSC.language) with
                  | En => "Error generating PDF. Please try again."
                  | Th => "เกิดข้อผิดพลาดในการสร้าง PDF กรุณาลองอีกครั้ง"
                  end) ]
        /\ forall blob, ~ In (PSC.CreateObjectURL blob) (fst result)).
Proof.
  intros browser mk s result. subst result.
  split; [| split; [| split]].
  - unfold PSC.handleSubmit. destruct (outcome _) as [[blob |] | |]; discriminate.
  - apply handleSubmit_keeps.
  - intros Hw. unfold PSC.handleSubmit, Full.generatePDF. rewrite Hw. reflexivity.
  - intros Hw Hfail. unfold PSC.handleSubmit.
    rewrite (full_fetch_failure browser _ _ _ Hw Hfail). cbn [fst snd].
    split; [reflexivity | split; [| split]].
    + apply in_or_app. right. now left.
    + rewrite filter_app.
      assert (He : forall l, filter is_alert (map PSC.Engine l) = []).
      { induction l as [| e l IH]; [reflexivity | exact IH]. }
      rewrite He. destruct s.(PSC.language); reflexivity.
    + intros blob Hin. apply in_app_or in Hin as [Hin | Hin].
      * apply in_map_iff in Hin as (e & He & _). discriminate He.
      * cbn in Hin. intuition discriminate.
Qed.

Lemma submit_failure_is_alerted_witness :
  let env := mkImageEnv (fun _ => None) (fun _ => "") (fun _ => None) true
               (fun _ _ _ _ _ => "") in
  let s := PSC.changeLanguage Th PSC.initialState in
  snd (PSC.handleSubmit (sampleBrowser true env) (fun _ => "blob:1") s) = Resolved s.
Proof.
  intros env s.
  destruct (submit_failure_is_alerted (sampleBrowser true env) (fun _ => "blob:1") s)
    as (_ & _ & _ & H).
  destruct (H eq_refl (or_introl eq_refl)) as [Hs _]. exact Hs.
Defined.

(** X20. When [generatePDF] resolves with a blob, [handleSubmit] opens the
    preview on the object URL created for that blob and revokes no URL,
    so a URL that was shown before stays unrevoked; from the new state a
    download uses that URL under the name pump-service-checklist.pdf,
    closing the preview revokes exactly that URL and clears it, and after
    closing a download does nothing. *)
Theorem preview_url_lifetime :
  forall (browser : Browser) (createObjectURL : Blob -> string) (s : PSC.State)
         (blob : Blob),
    outcome (Full.generatePDF browser (PSC.asFormData s.(PSC.formData))
               (PSC.asCheckboxes s.(PSC.checkboxes)) s.(PSC.language))
    = Resolved (Some blob) ->
    createObjectURL blob <> "" ->
    let result := PSC.handleSubmit browser createObjectURL s in
    exists s',
      snd result = Resolved s'
      /\ s'.(PSC.isPreviewOpen) = true
      /\ s'.(PSC.pdfPreviewUrl) = Some (createObjectURL blob)
      /\ (forall url, ~ In (PSC.RevokeObjectURL url) (fst result))
      /\ PSC.handleDownload s'
         = [PSC.Download (createObjectURL blob) "pump-service-checklist.pdf"]
      /\ fst (PSC.handleClosePreview s') = [PSC.RevokeObjectURL (createObjectURL blob)]
      /\ (snd (PSC.handleClosePreview s')).(PSC.pdfPreviewUrl) = None
      /\ (snd (PSC.handleClosePreview s')).(PSC.isPreviewOpen) = false
      /\ PSC.handleDownload (snd (PSC.handleClosePreview s')) = [].
Proof.
  intros browser mk s blob Hgen Hurl result. subst result.
  unfold PSC.handleSubmit. rewrite Hgen. cbn [fst snd].
  assert (Ht : truthy (mk blob) = true) by (destruct (mk blob); [congruence | reflexivity]).
  eexists. split; [reflexivity |].
  unfold PSC.handleDownload, PSC.handleClosePreview.
  cbn [PSC.isPreviewOpen PSC.pdfPreviewUrl]. rewrite Ht. cbn.
  repeat split.
  intros url Hin. apply in_app_or in Hin as [Hin | Hin].
  - apply in_map_iff in Hin as (e & He & _). discriminate He.
  - cbn in Hin. intuition discriminate.
Qed.

Lemma preview_url_lifetime_witness :
  let browser := sampleBrowser true (sampleImages smallBlob None true) in
  exists s',
    snd (PSC.handleSubmit browser (fun _ => "blob:1") PSC.initialState) = Resolved s'
    /\ fst (PSC.handleClosePreview s') = [PSC.RevokeObjectURL "blob:1"].
Proof.
  intros browser.
  destruct (preview_url_lifetime browser (fun _ => "blob:1") PSC.initialState pdfBlob)
    as (s' & Hs & _ & _ & _ & _ & Hclose & _).
  - reflexivity.
  - discriminate.
  - exists s'. split; assumption.
Defined.

(** * The image slots *)

(** X21. The produced tree has two image slots, the logo and then the QR
    code, and they hold the strings that [loadImage] resolved with,
    unchanged.  In a browser with two images at or below the size
    threshold the engine therefore receives their data URLs as read; and
    when an image above the threshold decodes but no 2D context is
    available, the engine is still called, with the empty string in the
    slot of that image. *)
Theorem image_slots :
  forall (browser : Browser) formData checkboxes15 checkboxes6 language
         (logoBlob qrBlob : Blob) (today : string),
    browser.(window_defined) = true ->
    fetch browser.(images) "/Logo.png" = Some logoBlob ->
    fetch browser.(images) "/QR.jpeg" = Some qrBlob ->
    (size qrBlob <= 500 * 1024)%Z ->
    let env := browser.(images) in
    (forall logo qr,
       doc_images (Full.producedDocument formData checkboxes15 language logo qr today)
       = [logo; qr]
       /\ doc_images
            (PreServiceOnly.producedDocument formData checkboxes6 language logo qr)
          = [logo; qr])
    /\ ((size logoBlob <= 500 * 1024)%Z ->
        outcome (Full.generatePDF browser formData checkboxes15 language)
        = settle (browser.(getBlob)
                    (Full.producedDocument formData checkboxes15 language
                       (readAsDataURL env logoBlob) (readAsDataURL env qrBlob)
                       browser.(localeDate))))
    /\ (forall w h,
          (500 * 1024 < size logoBlob)%Z ->
          decode env logoBlob = Some (w, h) ->
          getContext2d env = false ->
          outcome (Full.generatePDF browser formData checkboxes15 language)
          = settle (browser.(getBlob)
                      (Full.producedDocument formData checkboxes15 language
                         "" (readAsDataURL env qrBlob) browser.(localeDate)))).
Proof.
  intros browser formData cb15 cb6 language logoBlob qrBlob today Hw Hl Hq Hqs env.
  subst env.
  pose proof (loadImage_small _ _ _ Hq Hqs) as Eq.
  split; [| split].
  - intros logo qr. split; reflexivity.
  - intros Hls. pose proof (loadImage_small _ _ _ Hl Hls) as El.
    rewrite (full_generatePDF_run browser formData language cb15 Hw), El, Eq.
    reflexivity.
  - intros w h Hls Hd Hc.
    pose proof (loadImage_no_context _ _ _ Hl w h Hls Hd Hc) as El.
    rewrite (full_generatePDF_run browser formData language cb15 Hw), El, Eq.
    reflexivity.
Qed.

Lemma image_slots_witness :
  let browser := sampleBrowser true (sampleImages smallBlob None true) in
  outcome (Full.generatePDF browser acmeForm allFalse15 En)
  = settle (browser.(getBlob)
              (Full.producedDocument acmeForm allFalse15 En
                 "data:image/png;base64,iVBORw==" "data:image/png;base64,iVBORw=="
                 "02/11/2026")).
Proof.
  intros browser.
  destruct (image_slots browser acmeForm allFalse15 allFalse6 En smallBlob smallBlob
              "" eq_refl eq_refl eq_refl) as (_ & H & _).
  - vm_compute. discriminate.
  - apply H. vm_compute. discriminate.
Defined.
